(** * moonly-backend: trajectory synthesis, shadow intervals and the data cache

    A shallow embedding of [services/data_store.py] and of the two query
    handlers of [app.py], with the properties of the written specification
    stated over it.

    Conventions.
    - A timezone-aware [datetime] is the integer number of microseconds since
      the Unix epoch (Python's own resolution).  A [timedelta] is a difference
      of two such integers; [total_seconds() >= 240] and
      [int(total_seconds() // 5)] are read on these integers.
    - Floating-point values and the numerical helpers ([splines], [skyfield],
      [services.helpers]) are collaborators outside the repository's sources;
      they are the fields of the class [Externals], and each call that can
      raise returns a [res].
    - A Python exception is a value [Raise e]; [try ... except Exception] is
      the combinator [try_except].  Module globals, the three files under
      [data/] and the log form the [store] that the functions thread.
    - The request bounds of the handlers are taken after [isoparse].  The
      background scheduler only calls [get_sat_data] and is left out. *)

From Stdlib Require Import ZArith List String Ascii Bool Lia.
Import ListNotations.
Open Scope string_scope.
Open Scope list_scope.
Open Scope Z_scope.

Set Implicit Arguments.

(** ** Exceptions *)

Definition exn := string.

Inductive res (A : Type) : Type :=
| Ok (a : A)
| Raise (e : exn).
Arguments Ok {A} a.
Arguments Raise {A} e.

Definition rbind {A B} (r : res A) (k : A -> res B) : res B :=
  match r with
  | Ok a => k a
  | Raise e => Raise e
  end.

Declare Scope res_scope.
Delimit Scope res_scope with res.
Notation "x <- c ;; k" := (rbind c (fun x => k))
  (at level 61, c at next level, right associativity) : res_scope.
Notation "' p <- c ;; k" := (rbind c (fun p => k))
  (at level 61, p pattern, c at next level, right associativity) : res_scope.

(** A [for] loop whose body may raise. *)
Fixpoint for_each {A S} (body : S -> A -> res S) (xs : list A) (s : S) : res S :=
  match xs with
  | [] => Ok s
  | x :: rest => (s' <- body s x ;; for_each body rest s')%res
  end.

(** ** Time *)

Definition datetime := Z.

(** [timedelta(seconds=n)] *)
Definition seconds (n : Z) : Z := n * 1000000.

(** The curve parameter [t0 + (t1 - t0) * (j / steps)] with [t0 = i] and
    [t1 = i + 1], kept as its three integer ingredients. *)
Record param := { p_index : nat; p_j : nat; p_steps : Z }.

(** ** External collaborators *)

Class Externals := {
  num : Type;                      (* Python and numpy floats *)
  curve : Type;                    (* splines.CatmullRom object *)
  eop : Type;                      (* the table returned by earthPositions() *)
  strptime : string -> res datetime;   (* "%Y-%m-%dT%H:%M:%S.%f", then utc *)
  CatmullRom : list (num * num * num) -> res curve;
  evaluate : curve -> param -> res (num * num * num);
  GCRF_to_ITRF : (num * num * num) -> (num * num * num) -> datetime -> eop ->
                 res ((num * num * num) * (num * num * num));
  topos_lookup : (num * num * num) -> datetime -> res unit; (* Topos_xyz, earth.at: values unused *)
  point_distance : (num * num * num) -> num;  (* sqrt(r0^2 + r1^2 + r2^2) *)
  minus_6371 : num -> num;
  sun_m : datetime -> res (num * num * num);  (* earth.at(..).observe(sun).position.m *)
  times_1000 : (num * num * num) -> (num * num * num);
  is_in_shadow : (num * num * num) -> (num * num * num) -> res bool;
  timestamp : datetime -> num;         (* datetime.timestamp() *)
  isoformat : datetime -> string;
  fromisoformat : string -> res datetime
}.

(** ** Files and log levels *)

(** A file under [data/]: nothing but [save_data] writes there, so a file
    holds a complete dump or what a failed write left behind. *)
Inductive written (A : Type) : Type :=
| Complete (a : A)
| Partial.
Arguments Complete {A} a.
Arguments Partial {A}.

(** The three files of [data/]. *)
Inductive path := PSat | PShadow | PTimestamp.

(** What [with open(path, 'w') as f: <write>] does to a file. *)
Inductive write_outcome :=
| Written
| OpenFails (e : exn)       (* the file is left as it was *)
| WriteFails (e : exn).     (* the file was truncated, the dump did not finish *)

Inductive level := INFO | ERROR.

Section Model.

Context {E : Externals}.

Definition vec3 : Type := (num * num * num)%type.

(** ** Data *)

(** An entry of [raw_epoches], as [format_epoch] builds it. *)
Record raw_epoch := {
  raw_date : string;
  raw_location : vec3;
  raw_velocity : vec3
}.

(** An entry of [epoches]. *)
Record epoch := {
  edate : datetime;
  elocation : vec3;
  evelocity : vec3
}.

(** The value under the key ['date'] of a point: a datetime, or the string
    that [_json_datetime_deserialize] leaves in place when it does not parse. *)
Inductive pydate :=
| Datetime (d : datetime)
| DateStr (s : string).

(** An entry of [sat]: the dict with keys ['date'], ['location'] and
    ['altitude']; [altitude = None] is the key being absent. *)
Record point := {
  date : pydate;
  location : vec3;
  altitude : option num
}.

(** An entry of [shadow_intervals]: the two-element list [[start, end]] of
    epoch seconds. *)
Definition interval : Type := (num * num)%type.

(** ** EpochDecimator: [get_sat_data], lines 162-170 *)

Fixpoint last_opt {A} (l : list A) : option A :=
  match l with
  | [] => None
  | [x] => Some x
  | _ :: rest => last_opt rest
  end.

(** [len(epoches) == 0 or (date - epoches[-1]['date']).total_seconds() >= 60 * 4] *)
Definition keeps (epoches : list epoch) (d : datetime) : bool :=
  match last_opt epoches with
  | None => true
  | Some e => seconds (60 * 4) <=? d - edate e
  end.

Definition decimate_step (epoches : list epoch) (r : raw_epoch) : res (list epoch) :=
  (d <- strptime (raw_date r) ;;
   if keeps epoches d
   then Ok (epoches ++ [ {| edate := d;
                            elocation := raw_location r;
                            evelocity := raw_velocity r |} ])
   else Ok epoches)%res.

(** [for i in range(len(raw_epoches) - 1)]: the indices stop one short of the
    last raw epoch. *)
Definition decimate (raw_epoches : list raw_epoch) : res (list epoch) :=
  for_each decimate_step
           (firstn (List.length raw_epoches - 1) raw_epoches) [].

(** ** TrajectorySynthesizer and ShadowDetector: lines 172-223 *)

(** [max(1, int((end - start).total_seconds() // 5))] *)
Definition steps_of (start_ end_ : datetime) : Z :=
  Z.max 1 ((end_ - start_) / seconds 5).

(** One pass of the inner loop body: segment [i], step [j]. *)
Record sample := {
  s_i : nat;
  s_j : nat;
  s_steps : Z;
  s_epoch : epoch;         (* epoches[i] *)
  s_date : datetime        (* start + timedelta(seconds=j * 5) *)
}.

Definition segment_samples (i : nat) (e0 e1 : epoch) : list sample :=
  let steps := steps_of (edate e0) (edate e1) in
  map (fun j => {| s_i := i; s_j := j; s_steps := steps; s_epoch := e0;
                   s_date := edate e0 + seconds (Z.of_nat j * 5) |})
      (seq 0 (Z.to_nat steps)).

(** The iteration space of
    [for i in range(len(epoches) - 1): for j in range(steps):]. *)
Fixpoint samples_from (i : nat) (epoches : list epoch) : list sample :=
  match epoches with
  | e0 :: ((e1 :: _) as rest) => segment_samples i e0 e1 ++ samples_from (S i) rest
  | _ => []
  end.

Definition samples (epoches : list epoch) : list sample := samples_from 0 epoches.

(** The loop's local variables. *)
Record gen := {
  sat : list point;
  shadow_intervals : list interval;
  shadow_start : option datetime
}.

Definition gen0 : gen :=
  {| sat := []; shadow_intervals := []; shadow_start := None |}.

(** Lines 192-211: only taken when [j == 0]. *)
Definition emit_point (earth_positions : eop) (pt : vec3) (s : sample) (g : gen) : res gen :=
  if Nat.eqb (s_j s) 0 then
    ('(r, _) <- GCRF_to_ITRF pt (evelocity (s_epoch s)) (s_date s) earth_positions ;;
     _ <- topos_lookup r (s_date s) ;;
     let altitude := minus_6371 (point_distance r) in
     Ok {| sat := sat g ++ [ {| date := Datetime (s_date s);
                                location := r;
                                altitude := Some altitude |} ];
           shadow_intervals := shadow_intervals g;
           shadow_start := shadow_start g |})%res
  else Ok g.

(** Lines 215-220: the two-state eclipse tracker. *)
Definition track_shadow (in_shadow : bool) (d : datetime) (g : gen) : gen :=
  let g1 :=
    match in_shadow, shadow_start g with
    | true, None => {| sat := sat g; shadow_intervals := shadow_intervals g;
                       shadow_start := Some d |}
    | _, _ => g
    end in
  match in_shadow, shadow_start g1 with
  | false, Some s0 =>
      {| sat := sat g1;
         shadow_intervals := shadow_intervals g1 ++ [(timestamp s0, timestamp d)];
         shadow_start := None |}
  | _, _ => g1
  end.

Definition sample_body (c : curve) (earth_positions : eop) (g : gen) (s : sample) : res gen :=
  (pt <- evaluate c {| p_index := s_i s; p_j := s_j s; p_steps := s_steps s |} ;;
   g1 <- emit_point earth_positions pt s g ;;
   sun <- sun_m (s_date s) ;;
   in_shadow <- is_in_shadow sun (times_1000 pt) ;;
   Ok (track_shadow in_shadow (s_date s) g1))%res.

(** Lines 222-223: an interval still open after the loops is closed at
    [epoches[-1]['date']]. *)
Definition flush (epoches : list epoch) (g : gen) : res (list interval) :=
  match shadow_start g with
  | None => Ok (shadow_intervals g)
  | Some s0 =>
      match last_opt epoches with
      | Some e => Ok (shadow_intervals g ++ [(timestamp s0, timestamp (edate e))])
      | None => Raise "IndexError: list index out of range"
      end
  end.

(** Lines 172-223 for a given list of decimated epochs. *)
Definition synthesize (earth_positions : eop) (epoches : list epoch)
  : res (list point * list interval) :=
  (c <- CatmullRom (map elocation epoches) ;;
   g <- for_each (sample_body c earth_positions) (samples epoches) gen0 ;;
   sh <- flush epoches g ;;
   Ok (sat g, sh))%res.

(** ** DataCache: module state, durable files and the log *)

(** A JSON object of [sat_data.json]; the date is text. *)
Record jpoint := {
  jdate : string;
  jlocation : vec3;
  jaltitude : option num
}.

Record files := {
  SAT_DATA_FILE : option (written (list jpoint));
  SHADOW_FILE : option (written (list interval));
  TIMESTAMP_FILE : option (written string)
}.

Record store := {
  _sat_data_cache : option (list point);
  _shadow_intervals_cache : option (list interval);
  _updated_at_cache : option datetime;
  disk : files;
  logger : list (level * string)
}.

(** What the outside world does during one call: the outcome of the downloads
    and of the parsing (lines 146-156), of each [open(.., 'w')] and write, and
    the two readings of the clock. *)
Record world := {
  fetched : res (list raw_epoch * eop);
  io : path -> write_outcome;
  now_save : datetime;
  now_cache : datetime
}.

(** Computations over the module state that may raise; a raise keeps the
    state changes made before it. *)
Definition M (A : Type) : Type := store -> res A * store.

Definition ret {A} (a : A) : M A := fun st => (Ok a, st).

Definition bind {A B} (m : M A) (k : A -> M B) : M B :=
  fun st => match m st with
            | (Ok a, st') => k a st'
            | (Raise e, st') => (Raise e, st')
            end.

Definition lift {A} (r : res A) : M A := fun st => (r, st).

Definition try_except {A} (body : M A) (handler : exn -> M A) : M A :=
  fun st => match body st with
            | (Ok a, st') => (Ok a, st')
            | (Raise e, st') => handler e st'
            end.

Definition get : M store := fun st => (Ok st, st).

Definition log (l : level) (msg : string) : M unit :=
  fun st => (Ok tt, {| _sat_data_cache := _sat_data_cache st;
                       _shadow_intervals_cache := _shadow_intervals_cache st;
                       _updated_at_cache := _updated_at_cache st;
                       disk := disk st;
                       logger := logger st ++ [(l, msg)] |}).

Definition set_disk (d : files) : M unit :=
  fun st => (Ok tt, {| _sat_data_cache := _sat_data_cache st;
                       _shadow_intervals_cache := _shadow_intervals_cache st;
                       _updated_at_cache := _updated_at_cache st;
                       disk := d;
                       logger := logger st |}).

Definition set_cache (s : list point) (sh : list interval) (u : datetime) : M unit :=
  fun st => (Ok tt, {| _sat_data_cache := Some s;
                       _shadow_intervals_cache := Some sh;
                       _updated_at_cache := Some u;
                       disk := disk st;
                       logger := logger st |}).

Declare Scope m_scope.
Delimit Scope m_scope with M.
Notation "x <- c ;; k" := (bind c (fun x => k))
  (at level 61, c at next level, right associativity) : m_scope.
Notation "' p <- c ;; k" := (bind c (fun p => k))
  (at level 61, p pattern, c at next level, right associativity) : m_scope.
Notation "c ;; k" := (bind c (fun _ => k))
  (at level 61, right associativity) : m_scope.

(** *** [save_data] *)

Definition write_file {A} (o : write_outcome) (old : option (written A)) (new : A)
  : res unit * option (written A) :=
  match o with
  | Written => (Ok tt, Some (Complete new))
  | OpenFails e => (Raise e, old)
  | WriteFails e => (Raise e, Some Partial)
  end.

(** [json.dump(.., default=_json_datetime_serialize)] on one point: a
    datetime goes through [isoformat], a string is written as it is. *)
Definition _json_datetime_serialize (d : pydate) : string :=
  match d with
  | Datetime d => isoformat d
  | DateStr s => s
  end.

Definition dump_point (p : point) : jpoint :=
  {| jdate := _json_datetime_serialize (date p);
     jlocation := location p;
     jaltitude := altitude p |}.

Definition write_sat (w : world) (sat_data : list point) : M unit :=
  (st <- get ;;
   let d := disk st in
   let '(r, f) := write_file (io w PSat) (SAT_DATA_FILE d) (map dump_point sat_data) in
   set_disk {| SAT_DATA_FILE := f; SHADOW_FILE := SHADOW_FILE d;
               TIMESTAMP_FILE := TIMESTAMP_FILE d |} ;;
   lift r)%M.

Definition write_shadow (w : world) (sh : list interval) : M unit :=
  (st <- get ;;
   let d := disk st in
   let '(r, f) := write_file (io w PShadow) (SHADOW_FILE d) sh in
   set_disk {| SAT_DATA_FILE := SAT_DATA_FILE d; SHADOW_FILE := f;
               TIMESTAMP_FILE := TIMESTAMP_FILE d |} ;;
   lift r)%M.

Definition write_timestamp (w : world) (now : datetime) : M unit :=
  (st <- get ;;
   let d := disk st in
   let '(r, f) := write_file (io w PTimestamp) (TIMESTAMP_FILE d) (isoformat now) in
   set_disk {| SAT_DATA_FILE := SAT_DATA_FILE d; SHADOW_FILE := SHADOW_FILE d;
               TIMESTAMP_FILE := f |} ;;
   lift r)%M.

Definition save_data (w : world) (sat_data : list point) (sh : list interval) : M bool :=
  try_except
    (write_sat w sat_data ;;
     write_shadow w sh ;;
     let now := now_save w in
     write_timestamp w now ;;
     ret true)%M
    (fun e => log ERROR ("Error saving data: " ++ e)%string ;; ret false)%M.

(** *** [load_data] *)

(** ASCII characters for which [str.isspace] holds. *)
Definition is_space (c : ascii) : bool :=
  let n := nat_of_ascii c in
  ((9 <=? n) && (n <=? 13) || (28 <=? n) && (n <=? 32))%nat.

Fixpoint lstrip (s : string) : string :=
  match s with
  | String c rest => if is_space c then lstrip rest else s
  | EmptyString => EmptyString
  end.

Fixpoint string_rev (s : string) : string :=
  match s with
  | String c rest => (string_rev rest ++ String c EmptyString)%string
  | EmptyString => EmptyString
  end.

(** [str.strip()] *)
Definition strip (s : string) : string :=
  string_rev (lstrip (string_rev (lstrip s))).

Definition file_exists {A} (f : option (written A)) : bool :=
  match f with
  | Some _ => true
  | None => false
  end.

(** [json.load] of a file: a truncated dump is not valid JSON. *)
Definition json_load {A} (f : option (written A)) : res A :=
  match f with
  | None => Raise "FileNotFoundError"
  | Some Partial => Raise "JSONDecodeError"
  | Some (Complete a) => Ok a
  end.

(** [datetime.fromisoformat(f.read().strip())]; a truncated timestamp is
    taken not to parse. *)
Definition read_timestamp (f : option (written string)) : res datetime :=
  match f with
  | None => Raise "FileNotFoundError"
  | Some Partial => Raise "ValueError: Invalid isoformat string"
  | Some (Complete s) => fromisoformat (strip s)
  end.

(** The [object_hook]: the value under ['date'] becomes a datetime when it
    parses and stays a string when [fromisoformat] raises [ValueError]. *)
Definition _json_datetime_deserialize (j : jpoint) : point :=
  {| date := match fromisoformat (jdate j) with
             | Ok d => Datetime d
             | Raise _ => DateStr (jdate j)
             end;
     location := jlocation j;
     altitude := jaltitude j |}.

Definition loaded : Type :=
  (option (list point) * option (list interval) * option datetime)%type.

Definition load_data : M loaded :=
  try_except
    (st <- get ;;
     let d := disk st in
     if negb (file_exists (SAT_DATA_FILE d)) || negb (file_exists (SHADOW_FILE d))
     then
       log INFO "Data files don't exist yet, will generate new data" ;;
       ret (None, None, None)
     else
       updated_at <- lift (read_timestamp (TIMESTAMP_FILE d)) ;;
       js <- lift (json_load (SAT_DATA_FILE d)) ;;
       let sat_data := map _json_datetime_deserialize js in
       sh <- lift (json_load (SHADOW_FILE d)) ;;
       set_cache sat_data sh updated_at ;;
       ret (Some sat_data, Some sh, Some updated_at))%M
    (fun e => log ERROR ("Error loading data: " ++ e)%string ;;
              ret (None, None, None))%M.

(** *** [get_sat_data] *)

(** Lines 146-223: everything before [save_data]. *)
Definition pipeline (w : world) : res (list point * list interval) :=
  ('(raw_epoches, earth_positions) <- fetched w ;;
   epoches <- decimate raw_epoches ;;
   synthesize earth_positions epoches)%res.

Definition get_sat_data (w : world) : M (list point) :=
  try_except
    ('(sat, shadow_intervals) <- lift (pipeline w) ;;
     save_data w sat shadow_intervals ;;
     set_cache sat shadow_intervals (now_cache w) ;;
     ret sat)%M
    (fun e => log ERROR ("Error generating satellite data: " ++ e)%string ;;
              ret [])%M.

(** *** [sat_data] *)

(** The dict [{"points": .., "shadow_intervals": ..}]. *)
Record data := {
  d_points : option (list point);
  d_shadow_intervals : option (list interval)
}.

Definition is_None {A} (o : option A) : bool :=
  match o with
  | None => true
  | Some _ => false
  end.

Definition from_cache : M data :=
  (st <- get ;;
   ret {| d_points := _sat_data_cache st;
          d_shadow_intervals := _shadow_intervals_cache st |})%M.

Definition sat_data (w : world) : M data :=
  (st <- get ;;
   if is_None (_sat_data_cache st) || is_None (_shadow_intervals_cache st) then
     '(loaded_sat_data, loaded_shadow_intervals, _) <- load_data ;;
     if is_None loaded_sat_data || is_None loaded_shadow_intervals then
       get_sat_data w ;;
       '(loaded_sat_data, loaded_shadow_intervals, _) <- load_data ;;
       if is_None loaded_sat_data || is_None loaded_shadow_intervals then
         log ERROR "Failed to generate or load satellite data" ;;
         ret {| d_points := Some []; d_shadow_intervals := Some [] |}
       else from_cache
     else from_cache
   else from_cache)%M.

(** ** The rest of [data_store.py] *)

(** [refresh_satellite_data]: the scheduler's job. *)
Definition refresh_satellite_data (w : world) : M unit :=
  (log INFO "Starting scheduled satellite data refresh" ;;
   get_sat_data w ;;
   log INFO "Completed scheduled satellite data refresh")%M.

Definition set_updated_at (u : datetime) : M unit :=
  fun st => (Ok tt, {| _sat_data_cache := _sat_data_cache st;
                       _shadow_intervals_cache := _shadow_intervals_cache st;
                       _updated_at_cache := Some u;
                       disk := disk st;
                       logger := logger st |}).

(** [return _updated_at_cache.isoformat()] *)
Definition updated_at_isoformat : M (option string) :=
  (st <- get ;;
   match _updated_at_cache st with
   | Some u => ret (Some (isoformat u))
   | None => lift (Raise "AttributeError: 'NoneType' object has no attribute 'isoformat'")
   end)%M.

(** [last_updated]: the bare [except:] returns None without logging. *)
Definition last_updated : M (option string) :=
  (st <- get ;;
   if is_None (_updated_at_cache st) then
     read <- try_except
               (u <- lift (read_timestamp (TIMESTAMP_FILE (disk st))) ;;
                set_updated_at u ;;
                ret true)
               (fun _ => ret false) ;;
     if read then updated_at_isoformat else ret None
   else updated_at_isoformat)%M.

(** The process: the module state together with the scheduler object and
    the number of hooks registered with [atexit]. *)
Record process := {
  mem : store;
  scheduler_running : bool;
  atexit_hooks : nat
}.

(** [start_scheduler] *)
Definition start_scheduler (p : process) : process :=
  if negb (scheduler_running p) then
    {| mem := snd (log INFO "Started satellite data refresh scheduler (every 12 hours)" (mem p));
       scheduler_running := true;
       atexit_hooks := S (atexit_hooks p) |}
  else p.

(** [initialize_data_store] up to the start of the scheduler. *)
Definition initialize_cache (w : world) : M unit :=
  (load_data ;;
   st <- get ;;
   if is_None (_sat_data_cache st) || is_None (_shadow_intervals_cache st) then
     get_sat_data w ;;
     load_data ;;
     ret tt
   else ret tt)%M.

(** [initialize_data_store] *)
Definition initialize_data_store (w : world) (p : process) : res unit * process :=
  match initialize_cache w (mem p) with
  | (Ok _, st) =>
      (Ok tt, start_scheduler {| mem := st;
                                 scheduler_running := scheduler_running p;
                                 atexit_hooks := atexit_hooks p |})
  | (Raise e, st) =>
      (Raise e, {| mem := st;
                   scheduler_running := scheduler_running p;
                   atexit_hooks := atexit_hooks p |})
  end.

(** ** QueryService: [app.py] *)

(** [date < start_dt] and [date > end_dt]: a string against a datetime is a
    [TypeError]. *)
Definition date_lt (a : pydate) (b : datetime) : res bool :=
  match a with
  | Datetime d => Ok (d <? b)
  | DateStr _ => Raise "TypeError: '<' not supported between instances of 'str' and 'datetime.datetime'"
  end.

Definition date_gt (a : pydate) (b : datetime) : res bool :=
  match a with
  | Datetime d => Ok (d >? b)
  | DateStr _ => Raise "TypeError: '>' not supported between instances of 'str' and 'datetime.datetime'"
  end.

(** [(start_dt is not None and date < start_dt) or
     (end_dt is not None and date > end_dt)] *)
Definition out_of_range (start_dt end_dt : option datetime) (d : pydate) : res bool :=
  (before <- match start_dt with
             | Some s => date_lt d s
             | None => Ok false
             end ;;
   if before then Ok true
   else match end_dt with
        | Some e => date_gt d e
        | None => Ok false
        end)%res.

Definition select_step (start_dt end_dt : option datetime) (acc : list point) (position : point)
  : res (list point) :=
  (skip <- out_of_range start_dt end_dt (date position) ;;
   if skip then Ok acc else Ok (acc ++ [position]))%res.

(** Lines 32-37 and 51-56: the loop over [data['points']]. *)
Definition select_points (start_dt end_dt : option datetime) (points : option (list point))
  : res (list point) :=
  match points with
  | None => Raise "TypeError: 'NoneType' object is not iterable"
  | Some ps => for_each (select_step start_dt end_dt) ps []
  end.

(** [POST /tracking/iss-data-raw], with the two bounds already parsed. *)
Definition get_iss_data_raw (w : world) (start_dt end_dt : option datetime) : M (list point) :=
  (data <- sat_data w ;;
   lift (select_points start_dt end_dt (d_points data)))%M.

(** The JSON object [{'points': .., 'shadowIntervals': ..}]. *)
Record response := {
  points : list point;
  shadowIntervals : option (list interval)
}.

(** [POST /tracking/iss-data] *)
Definition get_iss_data (w : world) (start_dt end_dt : option datetime) : M response :=
  (data <- sat_data w ;;
   res <- lift (select_points start_dt end_dt (d_points data)) ;;
   ret {| points := res; shadowIntervals := d_shadow_intervals data |})%M.

(** ** Vocabulary of the specification *)

(** Consecutive epochs at least 240 s apart. *)
Fixpoint spaced (l : list epoch) : Prop :=
  match l with
  | e0 :: ((e1 :: _) as rest) => seconds 240 <= edate e1 - edate e0 /\ spaced rest
  | _ => True
  end.

(** Strictly increasing timestamps. *)
Fixpoint increasing (l : list datetime) : Prop :=
  match l with
  | a :: ((b :: _) as rest) => a < b /\ increasing rest
  | _ => True
  end.


(** A trajectory point whose timestamp is a datetime. *)
Definition timed_point (t : datetime * vec3 * option num) : point :=
  let '(d, l, a) := t in {| date := Datetime d; location := l; altitude := a |}.

(** The specification's range test: [from <= t] and [t <= to] for each bound
    that is present. *)
Definition within (from to : option datetime) (p : point) : bool :=
  match date p with
  | Datetime t =>
      match from with Some f => f <=? t | None => true end &&
      match to with Some e => t <=? e | None => true end
  | DateStr _ => false
  end.

(** The inner loop's test [j == 0]. *)
Definition first_of_segment (s : sample) : bool := Nat.eqb (s_j s) 0.

(** The eclipse tracker of lines 215-220 run over a predicate stream. *)
Definition detect (stream : list (bool * datetime)) (g : gen) : gen :=
  fold_left (fun g '(in_shadow, d) => track_shadow in_shadow d g) stream g.

Definition has_altitude (p : point) : Prop := altitude p <> None.

(** [loaded_sat_data is None or loaded_shadow_intervals is None] on what a
    call of [load_data] returned. *)
Definition found_nothing (r : res loaded * store) : bool :=
  match fst r with
  | Ok (loaded_sat_data, loaded_shadow_intervals, _) =>
      is_None loaded_sat_data || is_None loaded_shadow_intervals
  | Raise _ => true
  end.

(** The three files of one generation. *)
Definition generation_files (pts : list point) (sh : list interval) (now : datetime) : files :=
  {| SAT_DATA_FILE := Some (Complete (map dump_point pts));
     SHADOW_FILE := Some (Complete sh);
     TIMESTAMP_FILE := Some (Complete (isoformat now)) |}.

(** Consecutive timestamps at least 240 s apart. *)
Fixpoint apart_240 (l : list datetime) : Prop :=
  match l with
  | a :: ((b :: _) as rest) => seconds 240 <= b - a /\ apart_240 rest
  | _ => True
  end.

(** The epoch the decimator builds from a raw epoch whose date parses to [d]. *)
Definition epoch_of (d : datetime) (r : raw_epoch) : epoch :=
  {| edate := d; elocation := raw_location r; evelocity := raw_velocity r |}.

(** A shadow interval as [shadow_intervals] stores it. *)
Definition stamp (iv : datetime * datetime) : interval :=
  (timestamp (fst iv), timestamp (snd iv)).

(** The interval bounds in order, followed by the start of an interval
    still open. *)
Definition timeline (ivs : list (datetime * datetime)) (open : option datetime)
  : list datetime :=
  flat_map (fun iv => [fst iv; snd iv]) ivs
  ++ match open with Some s0 => [s0] | None => [] end.

(** The tracker's variables describe ordered bounds, none after [m]. *)
Definition ordered_upto (stored : list interval) (open : option datetime) (m : datetime) : Prop :=
  exists ivs,
    stored = map stamp ivs /\
    increasing (timeline ivs open) /\
    Forall (fun x => x <= m) (timeline ivs open).


(** The ISO text of [d] parses back to [d], also after [strip]. *)
Definition iso_round_trips (d : datetime) : Prop :=
  fromisoformat (isoformat d) = Ok d /\ fromisoformat (strip (isoformat d)) = Ok d.

Definition points_round_trip (pts : list point) : Prop :=
  Forall (fun p => exists d, date p = Datetime d /\ fromisoformat (isoformat d) = Ok d) pts.

(** What the three files hold when all of them can be read back. *)
Definition readable (d : files) : option (list point * list interval * datetime) :=
  match SAT_DATA_FILE d, SHADOW_FILE d, read_timestamp (TIMESTAMP_FILE d) with
  | Some (Complete js), Some (Complete sh), Ok u =>
      Some (map _json_datetime_deserialize js, sh, u)
  | _, _, _ => None
  end.

(** The store with one more log entry, and with a new cached record. *)
Definition logged (st : store) (entry : level * string) : store :=
  {| _sat_data_cache := _sat_data_cache st;
     _shadow_intervals_cache := _shadow_intervals_cache st;
     _updated_at_cache := _updated_at_cache st;
     disk := disk st;
     logger := logger st ++ [entry] |}.

Definition cached (st : store) (pts : list point) (sh : list interval) (u : datetime) : store :=
  {| _sat_data_cache := Some pts;
     _shadow_intervals_cache := Some sh;
     _updated_at_cache := Some u;
     disk := disk st;
     logger := logger st |}.

Definition cache_is_empty (st : store) : bool :=
  is_None (_sat_data_cache st) || is_None (_shadow_intervals_cache st).

End Model.

(** ** A concrete instance for worked examples

    Numbers are integers, the curve is piecewise linear between the control
    points, the frame conversion is the identity, the sun sits on the +x axis
    and the Earth casts a cylindrical shadow along -x.  Text dates are those
    of a small table of instants of 2024-01-01. *)
Module Demo.

Definition t0 : datetime := seconds 1704067200.

(** strptime text, isoformat text, seconds after [t0] *)
Definition calendar : list (string * string * Z) :=
  [ ("2024-01-01T00:00:00.000000", "2024-01-01T00:00:00+00:00", 0);
    ("2024-01-01T00:00:15.000000", "2024-01-01T00:00:15+00:00", 15);
    ("2024-01-01T00:01:40.000000", "2024-01-01T00:01:40+00:00", 100);
    ("2024-01-01T00:04:00.000000", "2024-01-01T00:04:00+00:00", 240);
    ("2024-01-01T00:08:00.000000", "2024-01-01T00:08:00+00:00", 480);
    ("2024-01-01T00:08:20.000000", "2024-01-01T00:08:20+00:00", 500);
    ("2024-01-01T12:00:00.000000", "2024-01-01T12:00:00+00:00", 43200);
    ("2024-01-02T00:00:00.000000", "2024-01-02T00:00:00+00:00", 86400) ].

Definition demo_strptime (s : string) : res datetime :=
  match find (fun e => String.eqb (fst (fst e)) s) calendar with
  | Some e => Ok (t0 + seconds (snd e))
  | None => Raise "ValueError: time data does not match format"
  end.

Definition demo_isoformat (d : datetime) : string :=
  match find (fun e => Z.eqb (t0 + seconds (snd e)) d) calendar with
  | Some e => snd (fst e)
  | None => "0001-01-01T00:00:00+00:00"
  end.

Definition demo_fromisoformat (s : string) : res datetime :=
  match find (fun e => String.eqb (snd (fst e)) s) calendar with
  | Some e => Ok (t0 + seconds (snd e))
  | None => Raise "ValueError: Invalid isoformat string"
  end.

Definition zvec : Type := (Z * Z * Z)%type.

Definition demo_CatmullRom (vs : list zvec) : res (list zvec) :=
  if (List.length vs <? 2)%nat
  then Raise "ValueError: At least two vertices are required"
  else Ok vs.

Definition lerp (a b : Z) (p : param) : Z :=
  a + (b - a) * Z.of_nat (p_j p) / p_steps p.

Definition demo_evaluate (c : list zvec) (p : param) : res zvec :=
  match nth_error c (p_index p), nth_error c (S (p_index p)) with
  | Some (x0, y0, z0), Some (x1, y1, z1) =>
      Ok (lerp x0 x1 p, lerp y0 y1 p, lerp z0 z1 p)
  | _, _ => Raise "ValueError: parameter outside of the curve"
  end.

Definition demo_is_in_shadow (sun pt : zvec) : res bool :=
  let '(x, y, z) := pt in
  Ok ((x <? 0) && (y * y + z * z <? 6371000 * 6371000)).

#[export] Instance externals : Externals := {|
  num := Z;
  curve := list zvec;
  eop := unit;
  strptime := demo_strptime;
  CatmullRom := demo_CatmullRom;
  evaluate := demo_evaluate;
  GCRF_to_ITRF := fun pt v _ _ => Ok (pt, v);
  topos_lookup := fun _ _ => Ok tt;
  point_distance := fun '(x, y, z) => Z.sqrt (x * x + y * y + z * z);
  minus_6371 := fun d => d - 6371;
  sun_m := fun _ => Ok (149597870700, 0, 0);
  times_1000 := fun '(x, y, z) => (x * 1000, y * 1000, z * 1000);
  is_in_shadow := demo_is_in_shadow;
  timestamp := fun d => d / 1000000;
  isoformat := demo_isoformat;
  fromisoformat := demo_fromisoformat
|}.

Definition raw (s : string) (x : Z) : raw_epoch :=
  {| raw_date := s; raw_location := (x, 6370, 0); raw_velocity := (0, 0, 0) |}.

Definition ep (d : datetime) (x : Z) : epoch :=
  {| edate := d; elocation := (x, 6370, 0); evelocity := (0, 0, 0) |}.

(** Three raw epochs at [t0], [t0 + 100 s] and [t0 + 500 s]. *)
Definition raw_0_100_500 : list raw_epoch :=
  [ raw "2024-01-01T00:00:00.000000" 6800;
    raw "2024-01-01T00:01:40.000000" 6700;
    raw "2024-01-01T00:08:20.000000" 6300 ].

(** Three raw epochs at [t0], [t0 + 240 s] and [t0 + 480 s]; the body enters
    the shadow just before the second one. *)
Definition raw_0_240_480 : list raw_epoch :=
  [ raw "2024-01-01T00:00:00.000000" 4600;
    raw "2024-01-01T00:04:00.000000" (-200);
    raw "2024-01-01T00:08:00.000000" (-5000) ].

Definition empty_files : files :=
  {| SAT_DATA_FILE := None; SHADOW_FILE := None; TIMESTAMP_FILE := None |}.

Definition cold : store :=
  {| _sat_data_cache := None; _shadow_intervals_cache := None;
     _updated_at_cache := None; disk := empty_files; logger := [] |}.

Definition all_written : path -> write_outcome := fun _ => Written.

Definition world_ok : world :=
  {| fetched := Ok (raw_0_240_480, tt);
     io := all_written;
     now_save := t0 + seconds 43200;
     now_cache := t0 + seconds 43200 |}.

(** Two decimated epochs 240 s apart, and two 15 s apart. *)
Definition epoches_0_240 : list epoch :=
  [ ep t0 4600; ep (t0 + seconds 240) (-200) ].

Definition epoches_0_15 : list epoch :=
  [ ep t0 500; ep (t0 + seconds 15) (-2500) ].

(** Generation A: what [raw_0_240_480] produces. *)
Definition pts_a : list point :=
  [ timed_point (t0, (4600, 6370, 0), Some 1486) ].

Definition sh_a : list interval := [ (1704067435, 1704067440) ].

(** The store after generation A was produced and saved from a cold start. *)
Definition warm : store :=
  {| _sat_data_cache := Some pts_a;
     _shadow_intervals_cache := Some sh_a;
     _updated_at_cache := Some (t0 + seconds 43200);
     disk := generation_files pts_a sh_a (t0 + seconds 43200);
     logger := [] |}.

(** Generation B: a later pass that stays in sunlight. *)
Definition raw_b : list raw_epoch :=
  [ raw "2024-01-01T00:04:00.000000" 6500;
    raw "2024-01-01T00:08:00.000000" 6100;
    raw "2024-01-01T00:08:20.000000" 6000 ].

Definition pts_b : list point :=
  [ timed_point (t0 + seconds 240, (6500, 6370, 0), Some 2729) ].

Definition sh_b : list interval := [].

(** The shadow file cannot be opened for writing. *)
Definition world_b_shadow_locked : world :=
  {| fetched := Ok (raw_b, tt);
     io := fun p => match p with
                    | PShadow => OpenFails "PermissionError"
                    | _ => Written
                    end;
     now_save := t0 + seconds 86400;
     now_cache := t0 + seconds 86400 |}.

(** No file can be opened for writing. *)
Definition world_b_unwritable : world :=
  {| fetched := Ok (raw_b, tt);
     io := fun _ => OpenFails "PermissionError";
     now_save := t0 + seconds 86400;
     now_cache := t0 + seconds 86400 |}.

(** The download fails and nothing can be written. *)
Definition world_offline : world :=
  {| fetched := Raise "ConnectionError";
     io := fun _ => OpenFails "PermissionError";
     now_save := t0 + seconds 86400;
     now_cache := t0 + seconds 86400 |}.

(** Four raw epochs at [t0], [t0 + 240 s], [t0 + 480 s] and [t0 + 500 s]. *)
Definition raw_long : list raw_epoch :=
  [ raw "2024-01-01T00:00:00.000000" 4600;
    raw "2024-01-01T00:04:00.000000" (-200);
    raw "2024-01-01T00:08:00.000000" (-5000);
    raw "2024-01-01T00:08:20.000000" (-5400) ].

Definition world_long : world :=
  {| fetched := Ok (raw_long, tt);
     io := all_written;
     now_save := t0 + seconds 43200;
     now_cache := t0 + seconds 43200 |}.

Definition pts_long : list point :=
  [ timed_point (t0, (4600, 6370, 0), Some 1486);
    timed_point (t0 + seconds 240, (-200, 6370, 0), Some 2) ].

Definition sh_long : list interval := [ (1704067435, 1704067680) ].

(** Only two raw epochs were published. *)
Definition world_two_raws : world :=
  {| fetched := Ok ([ raw "2024-01-01T00:00:00.000000" 4600;
                      raw "2024-01-01T00:04:00.000000" (-200) ], tt);
     io := all_written;
     now_save := t0 + seconds 43200;
     now_cache := t0 + seconds 43200 |}.

(** A process restarted over the files of generation A, with nothing cached. *)
Definition restarted : process :=
  {| mem := {| _sat_data_cache := None; _shadow_intervals_cache := None;
               _updated_at_cache := None;
               disk := generation_files pts_a sh_a (t0 + seconds 43200);
               logger := [] |};
     scheduler_running := false;
     atexit_hooks := 0 |}.

End Demo.


(** * Properties *)

Section Properties.

Context {E : Externals}.

(** ** Loops *)

Lemma firstn_all_but_last {A} (l : list A) (x : A) :
  firstn (List.length (l ++ [x]) - 1) (l ++ [x]) = l.
Proof.
  rewrite length_app; simpl.
  replace (List.length l + 1 - 1)%nat with (List.length l) by lia.
  rewrite firstn_app, firstn_all, Nat.sub_diag; simpl.
  apply app_nil_r.
Qed.

Lemma last_opt_snoc {A} (l : list A) (x : A) : last_opt (l ++ [x]) = Some x.
Proof.
  induction l as [|a l IH]; simpl; [reflexivity|].
  destruct (l ++ [x]) eqn:Hl; [destruct l; discriminate | exact IH].
Qed.

(** ** EpochDecimator *)

Lemma spaced_snoc l e :
  spaced l ->
  (forall e', last_opt l = Some e' -> seconds 240 <= edate e - edate e') ->
  spaced (l ++ [e]).
Proof.
  induction l as [|a l IH]; intros Hs Hl; simpl; [exact I|].
  destruct l as [|b l]; simpl in *.
  - split; [apply Hl; reflexivity | exact I].
  - destruct Hs as [Hab Hs]. split; [exact Hab|].
    apply IH; [exact Hs | exact Hl].
Qed.

Lemma decimate_step_spaced acc r out :
  spaced acc -> decimate_step acc r = Ok out -> spaced out.
Proof.
  unfold decimate_step, keeps; intros Hs H.
  destruct (strptime (raw_date r)) as [d|]; cbn [rbind] in H; [|discriminate].
  change (60 * 4) with 240 in H.
  destruct (last_opt acc) as [e'|] eqn:Hlast.
  - destruct (Z.leb_spec (seconds 240) (d - edate e')) as [Hge|Hlt];
      inversion H; subst; [|exact Hs].
    apply spaced_snoc; [exact Hs|].
    intros e'' He''. rewrite Hlast in He''. inversion He''; subst. exact Hge.
  - inversion H; subst. apply spaced_snoc; [exact Hs|].
    intros e'' He''. rewrite Hlast in He''. discriminate.
Qed.

Lemma decimate_loop_spaced raws : forall acc out,
  spaced acc -> for_each decimate_step raws acc = Ok out -> spaced out.
Proof.
  induction raws as [|r raws IH]; intros acc out Hs H; simpl in H.
  - inversion H; subst; exact Hs.
  - destruct (decimate_step acc r) as [acc'|] eqn:Hstep; simpl in H; [|discriminate].
    eapply IH; [|exact H]. eapply decimate_step_spaced; eauto.
Qed.

(** Whatever [decimate] returns is spaced by at least 240 s. *)
Lemma decimate_spaced raws out : decimate raws = Ok out -> spaced out.
Proof. apply decimate_loop_spaced. exact I. Qed.

(** Epochs the decimator returns have strictly increasing timestamps. *)
Lemma spaced_increasing l : spaced l -> increasing (map edate l).
Proof.
  induction l as [|e0 l IH]; intros H; [exact I|].
  destruct l as [|e1 l]; [exact I|].
  destruct H as [Hgap H]. split; [unfold seconds in Hgap; lia | exact (IH H)].
Qed.

(** ** TrajectorySynthesizer *)

Lemma steps_of_pos a b : 1 <= steps_of a b.
Proof. unfold steps_of; lia. Qed.



Lemma track_shadow_sat b d g : sat (track_shadow b d g) = sat g.
Proof.
  unfold track_shadow.
  destruct b, (shadow_start g); reflexivity.
Qed.

(** What one pass of the body adds to [sat]. *)
Lemma sample_body_sat c earth g s g' :
  sample_body c earth g s = Ok g' ->
  exists extra,
    sat g' = sat g ++ extra /\
    map date extra = (if Nat.eqb (s_j s) 0 then [Datetime (s_date s)] else []) /\
    Forall has_altitude extra.
Proof.
  unfold sample_body, emit_point. intros H.
  destruct (evaluate c _) as [pt|]; cbn [rbind] in H; [|discriminate].
  destruct (Nat.eqb (s_j s) 0).
  - destruct (GCRF_to_ITRF pt _ _ _) as [[r v]|]; cbn [rbind] in H; [|discriminate].
    destruct (topos_lookup r _); cbn [rbind] in H; [|discriminate].
    destruct (sun_m _); cbn [rbind] in H; [|discriminate].
    destruct (is_in_shadow _ _); cbn [rbind] in H; [|discriminate].
    inversion H; subst. rewrite track_shadow_sat. cbn [sat].
    eexists; split; [reflexivity|]. split; [reflexivity|].
    constructor; [|constructor]. unfold has_altitude; cbn; discriminate.
  - cbn [rbind] in H.
    destruct (sun_m _); cbn [rbind] in H; [|discriminate].
    destruct (is_in_shadow _ _); cbn [rbind] in H; [|discriminate].
    inversion H; subst. rewrite track_shadow_sat.
    exists []. rewrite app_nil_r. repeat split. constructor.
Qed.

Lemma sample_loop_sat c earth xs : forall g g',
  for_each (sample_body c earth) xs g = Ok g' ->
  exists extra,
    sat g' = sat g ++ extra /\
    map date extra = map (fun s => Datetime (s_date s)) (filter first_of_segment xs) /\
    Forall has_altitude extra.
Proof.
  induction xs as [|s xs IH]; intros g g' H; simpl in H.
  - inversion H; subst. exists []. rewrite app_nil_r. repeat split. constructor.
  - destruct (sample_body c earth g s) as [g1|] eqn:Hb; cbn [rbind] in H; [|discriminate].
    destruct (sample_body_sat _ _ _ _ Hb) as (x1 & Hs1 & Hd1 & Ha1).
    destruct (IH _ _ H) as (x2 & Hs2 & Hd2 & Ha2).
    exists (x1 ++ x2). rewrite Hs2, Hs1, <- app_assoc. split; [reflexivity|].
    split.
    + rewrite map_app, Hd1, Hd2. cbn [filter]. unfold first_of_segment at 2.
      destruct (Nat.eqb (s_j s) 0); reflexivity.
    + apply Forall_app; split; assumption.
Qed.

Lemma later_steps_filtered (f : nat -> sample) n : forall k,
  (forall j, s_j (f j) = j) ->
  filter first_of_segment (map f (seq (S k) n)) = [].
Proof.
  induction n as [|n IH]; intros k Hf; [reflexivity|].
  cbn [seq map filter]. unfold first_of_segment at 1. rewrite Hf. cbn [Nat.eqb].
  apply IH; exact Hf.
Qed.

Lemma segment_first_sample i e0 e1 :
  map s_date (filter first_of_segment (segment_samples i e0 e1)) = [edate e0].
Proof.
  unfold segment_samples.
  pose proof (steps_of_pos (edate e0) (edate e1)) as Hpos.
  destruct (Z.to_nat (steps_of (edate e0) (edate e1))) as [|n] eqn:Hn; [lia|].
  cbn [seq map filter]. unfold first_of_segment at 1. cbn [s_j Nat.eqb].
  rewrite later_steps_filtered by reflexivity.
  cbn [map s_date]. unfold seconds. f_equal. lia.
Qed.

Lemma first_samples_dates epoches : forall i,
  map s_date (filter first_of_segment (samples_from i epoches))
  = removelast (map edate epoches).
Proof.
  induction epoches as [|e0 rest IH]; intros i; [reflexivity|].
  destruct rest as [|e1 rest]; [reflexivity|].
  change (samples_from i (e0 :: e1 :: rest))
    with (segment_samples i e0 e1 ++ samples_from (S i) (e1 :: rest)).
  rewrite filter_app, map_app, segment_first_sample, IH. reflexivity.
Qed.



Lemma last_opt_map {A B} (f : A -> B) l :
  last_opt (map f l) = option_map f (last_opt l).
Proof.
  induction l as [|a l IH]; [reflexivity|].
  destruct l as [|b l]; [reflexivity|]. exact IH.
Qed.

Lemma increasing_first_le_last l : forall a y,
  increasing (a :: l) -> last_opt (a :: l) = Some y -> a <= y.
Proof.
  induction l as [|b l IH]; intros a y Hinc Hy.
  - inversion Hy; subst; lia.
  - destruct Hinc as [Hab Hinc].
    change (last_opt (a :: b :: l)) with (last_opt (b :: l)) in Hy.
    specialize (IH b y Hinc Hy). lia.
Qed.

Lemma increasing_app_bound m l1 l2 :
  increasing l1 -> increasing l2 ->
  Forall (fun a => a < m) l1 -> Forall (fun b => m <= b) l2 ->
  increasing (l1 ++ l2).
Proof.
  induction l1 as [|a l1 IH]; intros H1 H2 F1 F2; [exact H2|].
  inversion F1 as [|? ? Ha F1']; subst.
  destruct l1 as [|a' l1].
  - destruct l2 as [|b l2]; [exact I|].
    inversion F2; subst. split; [lia | exact H2].
  - destruct H1 as [Haa H1]. split; [exact Haa|].
    apply IH; assumption.
Qed.

Lemma segment_samples_dates i e0 e1 :
  map s_date (segment_samples i e0 e1)
  = map (fun j => edate e0 + seconds (Z.of_nat j * 5))
        (seq 0 (Z.to_nat (steps_of (edate e0) (edate e1)))).
Proof. unfold segment_samples. rewrite map_map. reflexivity. Qed.

(** Within a segment the samples are 5 s apart. *)
Lemma cadence_increasing start n : forall k,
  increasing (map (fun j => start + seconds (Z.of_nat j * 5)) (seq k n)).
Proof.
  induction n as [|n IH]; intros k; [exact I|].
  cbn [seq map]. specialize (IH (S k)).
  destruct n as [|n]; [exact I|].
  cbn [seq map] in *. split; [unfold seconds; lia | exact IH].
Qed.

(** The samples of a segment stay before the segment's end. *)
Lemma segment_before_end i e0 e1 :
  edate e0 < edate e1 ->
  Forall (fun d => d < edate e1) (map s_date (segment_samples i e0 e1)).
Proof.
  intros Hlt. rewrite segment_samples_dates.
  apply Forall_forall. intros d Hd.
  apply in_map_iff in Hd. destruct Hd as (j & <- & Hj).
  apply in_seq in Hj.
  unfold steps_of, seconds in *.
  pose proof (Z.mul_div_le (edate e1 - edate e0) (5 * 1000000) ltac:(lia)) as Hdiv.
  destruct (Z.max_spec 1 ((edate e1 - edate e0) / (5 * 1000000))) as [[_ Hm]|[_ Hm]];
    rewrite Hm in Hj; lia.
Qed.

Lemma segment_after_start i e0 e1 :
  Forall (fun d => edate e0 <= d) (map s_date (segment_samples i e0 e1)).
Proof.
  rewrite segment_samples_dates. apply Forall_forall. intros d Hd.
  apply in_map_iff in Hd. destruct Hd as (j & <- & _). unfold seconds; lia.
Qed.

Lemma samples_after_start epoches : forall i e0,
  increasing (map edate (e0 :: epoches)) ->
  Forall (fun d => edate e0 <= d) (map s_date (samples_from i (e0 :: epoches))).
Proof.
  induction epoches as [|e1 rest IH]; intros i e0 Hinc; [constructor|].
  change (samples_from i (e0 :: e1 :: rest))
    with (segment_samples i e0 e1 ++ samples_from (S i) (e1 :: rest)).
  rewrite map_app. apply Forall_app. split; [apply segment_after_start|].
  destruct Hinc as [Hlt Hinc].
  eapply Forall_impl; [|apply (IH (S i) e1 Hinc)].
  cbn beta. intros d Hd. lia.
Qed.

(** With increasing epochs the visited samples are strictly increasing. *)
Lemma samples_increasing epoches : forall i,
  increasing (map edate epoches) ->
  increasing (map s_date (samples_from i epoches)).
Proof.
  induction epoches as [|e0 rest IH]; intros i Hinc; [exact I|].
  destruct rest as [|e1 rest]; [exact I|].
  change (samples_from i (e0 :: e1 :: rest))
    with (segment_samples i e0 e1 ++ samples_from (S i) (e1 :: rest)).
  destruct Hinc as [Hlt Hinc]. rewrite map_app.
  apply increasing_app_bound with (m := edate e1).
  - rewrite segment_samples_dates. apply cadence_increasing.
  - apply IH; exact Hinc.
  - apply segment_before_end; exact Hlt.
  - apply samples_after_start; exact Hinc.
Qed.

(** Every visited sample lies strictly before the last epoch. *)
Lemma samples_before_last_epoch epoches : forall i e,
  increasing (map edate epoches) ->
  last_opt epoches = Some e ->
  Forall (fun d => d < edate e) (map s_date (samples_from i epoches)).
Proof.
  induction epoches as [|e0 rest IH]; intros i e Hinc Hlast; [constructor|].
  destruct rest as [|e1 rest]; [constructor|].
  change (samples_from i (e0 :: e1 :: rest))
    with (segment_samples i e0 e1 ++ samples_from (S i) (e1 :: rest)).
  change (last_opt (e0 :: e1 :: rest)) with (last_opt (e1 :: rest)) in Hlast.
  destruct Hinc as [Hlt Hinc]. rewrite map_app. apply Forall_app. split.
  - assert (Hle : edate e1 <= edate e).
    { apply (increasing_first_le_last (map edate rest)); [exact Hinc|].
      change (edate e1 :: map edate rest) with (map edate (e1 :: rest)).
      rewrite last_opt_map, Hlast. reflexivity. }
    eapply Forall_impl; [|apply segment_before_end; exact Hlt].
    cbn beta. intros d Hd. lia.
  - apply IH; assumption.
Qed.


(** ** ShadowDetector *)

Lemma track_shadow_ext b d g g' :
  shadow_intervals g = shadow_intervals g' -> shadow_start g = shadow_start g' ->
  shadow_intervals (track_shadow b d g) = shadow_intervals (track_shadow b d g') /\
  shadow_start (track_shadow b d g) = shadow_start (track_shadow b d g').
Proof.
  unfold track_shadow. intros Hi Hs.
  destruct b; rewrite <- Hs; destruct (shadow_start g) eqn:Hg; cbn;
    rewrite <- ?Hs, ?Hg, ?Hi; cbn; rewrite ?Hi; auto.
Qed.

Lemma detect_ext stream : forall g g',
  shadow_intervals g = shadow_intervals g' -> shadow_start g = shadow_start g' ->
  shadow_intervals (detect stream g) = shadow_intervals (detect stream g') /\
  shadow_start (detect stream g) = shadow_start (detect stream g').
Proof.
  induction stream as [|[b d] stream IH]; intros g g' Hi Hs; [auto|].
  cbn [detect fold_left].
  destruct (track_shadow_ext b d g g' Hi Hs) as [Hi' Hs'].
  apply IH; assumption.
Qed.

(** The body leaves the tracker's variables as one [track_shadow] step does. *)
Lemma sample_body_shadow c earth g s g' :
  sample_body c earth g s = Ok g' ->
  exists b,
    shadow_intervals g' = shadow_intervals (track_shadow b (s_date s) g) /\
    shadow_start g' = shadow_start (track_shadow b (s_date s) g).
Proof.
  unfold sample_body, emit_point. intros H.
  destruct (evaluate c _) as [pt|]; cbn [rbind] in H; [|discriminate].
  destruct (Nat.eqb (s_j s) 0).
  - destruct (GCRF_to_ITRF pt _ _ _) as [[r v]|]; cbn [rbind] in H; [|discriminate].
    destruct (topos_lookup r _); cbn [rbind] in H; [|discriminate].
    destruct (sun_m _); cbn [rbind] in H; [|discriminate].
    destruct (is_in_shadow _ _) as [b|]; cbn [rbind] in H; [|discriminate].
    inversion H; subst. exists b. apply track_shadow_ext; reflexivity.
  - cbn [rbind] in H.
    destruct (sun_m _); cbn [rbind] in H; [|discriminate].
    destruct (is_in_shadow _ _) as [b|]; cbn [rbind] in H; [|discriminate].
    inversion H; subst. exists b. split; reflexivity.
Qed.

(** The loops run the tracker over the predicate stream of the samples. *)
Lemma sample_loop_shadow c earth xs : forall g g',
  for_each (sample_body c earth) xs g = Ok g' ->
  exists bs,
    List.length bs = List.length xs /\
    shadow_intervals g' = shadow_intervals (detect (combine bs (map s_date xs)) g) /\
    shadow_start g' = shadow_start (detect (combine bs (map s_date xs)) g).
Proof.
  induction xs as [|s xs IH]; intros g g' H; simpl in H.
  - inversion H; subst. exists []. repeat split.
  - destruct (sample_body c earth g s) as [g1|] eqn:Hb; cbn [rbind] in H; [|discriminate].
    destruct (sample_body_shadow _ _ _ _ Hb) as (b & Hi1 & Hs1).
    destruct (IH _ _ H) as (bs & Hlen & Hi & Hs).
    exists (b :: bs). split; [simpl; lia|].
    cbn [map combine detect fold_left].
    destruct (detect_ext (combine bs (map s_date xs)) _ _ Hi1 Hs1) as [Hi2 Hs2].
    unfold detect in *. rewrite Hi, Hs, Hi2, Hs2. split; reflexivity.
Qed.

(** C3 (amended).  If the tracker is still eclipsed after the last sample,
    the final interval runs from the recorded start to the timestamp of the
    last decimated epoch, which lies strictly after every sample, the last
    one included.  In particular the stream [false, true, true] sampled every
    5 s from t0 yields the one interval from t0 + 5 s to the last epoch. *)
Theorem open_interval_flushed_at_last_epoch
    (earth : eop) (epoches : list epoch) (c : curve) (g : gen) (s0 : datetime) :
  increasing (map edate epoches) ->
  CatmullRom (map elocation epoches) = Ok c ->
  for_each (sample_body c earth) (samples epoches) gen0 = Ok g ->
  shadow_start g = Some s0 ->
  (exists e,
      last_opt epoches = Some e /\
      synthesize earth epoches
      = Ok (sat g, shadow_intervals g ++ [(timestamp s0, timestamp (edate e))]) /\
      Forall (fun d => d < edate e) (map s_date (samples epoches))) /\
  (forall (t : datetime) (before : list epoch) (e : epoch),
      flush (before ++ [e])
            (detect [(false, t); (true, t + seconds 5); (true, t + seconds 10)] gen0)
      = Ok [(timestamp (t + seconds 5), timestamp (edate e))]).
Proof.
  intros Hinc Hc Hloop Hopen. split.
  - destruct (last_opt epoches) as [e|] eqn:Hlast.
    + exists e. split; [reflexivity|]. split.
      * unfold synthesize. rewrite Hc; cbn [rbind]. rewrite Hloop; cbn [rbind].
        unfold flush. rewrite Hopen, Hlast. reflexivity.
      * apply samples_before_last_epoch; assumption.
    + destruct epoches as [|e0 rest].
      * simpl in Hloop. inversion Hloop; subst. discriminate.
      * exfalso. clear -Hlast. revert e0 Hlast.
        induction rest as [|e1 rest IH]; intros e0 H; [discriminate|].
        apply (IH e1). exact H.
  - intros t before e. unfold flush. cbn. rewrite last_opt_snoc. reflexivity.
Qed.

(** ** DataCache *)

Ltac run_m :=
  unfold save_data, load_data, get_sat_data, try_except, bind, ret, lift, get, log,
    set_disk, set_cache, write_sat, write_shadow, write_timestamp, write_file;
  cbn [fst snd disk logger _sat_data_cache _shadow_intervals_cache _updated_at_cache
       SAT_DATA_FILE SHADOW_FILE TIMESTAMP_FILE].

(** [save_data] never raises and never touches the in-memory record; a
    [False] result comes with a logged error. *)
Lemma save_data_total w pts sh st :
  exists b st',
    save_data w pts sh st = (Ok b, st') /\
    _sat_data_cache st' = _sat_data_cache st /\
    _shadow_intervals_cache st' = _shadow_intervals_cache st /\
    _updated_at_cache st' = _updated_at_cache st /\
    (if b
     then disk st' = generation_files pts sh (now_save w) /\ logger st' = logger st
     else exists e, logger st' = logger st ++ [(ERROR, ("Error saving data: " ++ e)%string)]).
Proof.
  assert (Hfail : forall e st',
             _sat_data_cache st' = _sat_data_cache st ->
             _shadow_intervals_cache st' = _shadow_intervals_cache st ->
             _updated_at_cache st' = _updated_at_cache st ->
             logger st' = logger st ++ [(ERROR, ("Error saving data: " ++ e)%string)] ->
             exists b st'',
               (Ok false, st') = (Ok b, st'') /\
               _sat_data_cache st'' = _sat_data_cache st /\
               _shadow_intervals_cache st'' = _shadow_intervals_cache st /\
               _updated_at_cache st'' = _updated_at_cache st /\
               (if b
                then disk st'' = generation_files pts sh (now_save w) /\
                     logger st'' = logger st
                else exists e, logger st''
                               = logger st ++ [(ERROR, ("Error saving data: " ++ e)%string)])).
  { intros e st' H1 H2 H3 H4. exists false, st'. eauto 10. }
  run_m.
  destruct (io w PSat) eqn:H1; run_m; [|apply Hfail with (e := e); reflexivity..].
  destruct (io w PShadow) eqn:H2; run_m; [|apply Hfail with (e := e); reflexivity..].
  destruct (io w PTimestamp) eqn:H3; run_m; [|apply Hfail with (e := e); reflexivity..].
  eexists true, _. repeat split.
Qed.

(** C4 (amended).  [save_data] writes the three artifacts one after the other
    and without a transaction, and never raises.  When it returns True the
    three files all hold the new generation.  When a write fails it logs the
    error and returns False: the files written before the failure hold the
    new generation and the files after it keep what they held. *)
Theorem save_data_writes_in_sequence
    (w : world) (pts : list point) (sh : list interval) (st : store) :
  match save_data w pts sh st with
  | (Ok true, st') => disk st' = generation_files pts sh (now_save w)
  | (Ok false, st') =>
      (exists e, logger st' = logger st ++ [(ERROR, ("Error saving data: " ++ e)%string)]) /\
      ((io w PSat <> Written /\
        SHADOW_FILE (disk st') = SHADOW_FILE (disk st) /\
        TIMESTAMP_FILE (disk st') = TIMESTAMP_FILE (disk st))
       \/
       (SAT_DATA_FILE (disk st') = Some (Complete (map dump_point pts)) /\
        io w PShadow <> Written /\
        TIMESTAMP_FILE (disk st') = TIMESTAMP_FILE (disk st))
       \/
       (SAT_DATA_FILE (disk st') = Some (Complete (map dump_point pts)) /\
        SHADOW_FILE (disk st') = Some (Complete sh) /\
        io w PTimestamp <> Written))
  | (Raise _, _) => False
  end.
Proof.
  run_m.
  destruct (io w PSat) eqn:H1; run_m;
    [|(split; [eexists; reflexivity|]); left; repeat split; discriminate..].
  destruct (io w PShadow) eqn:H2; run_m;
    [|(split; [eexists; reflexivity|]); right; left; repeat split; discriminate..].
  destruct (io w PTimestamp) eqn:H3; run_m;
    [reflexivity|(split; [eexists; reflexivity|]); right; right; repeat split; discriminate..].
Qed.

(** [get_sat_data] in terms of its two stages. *)
Lemma get_sat_data_cases w st :
  match pipeline w with
  | Raise e =>
      get_sat_data w st
      = (Ok [],
         {| _sat_data_cache := _sat_data_cache st;
            _shadow_intervals_cache := _shadow_intervals_cache st;
            _updated_at_cache := _updated_at_cache st;
            disk := disk st;
            logger := logger st
                      ++ [(ERROR, ("Error generating satellite data: " ++ e)%string)] |})
  | Ok (pts, sh) =>
      exists b st1,
        save_data w pts sh st = (Ok b, st1) /\
        (if b then True
         else exists e,
             logger st1 = logger st ++ [(ERROR, ("Error saving data: " ++ e)%string)]) /\
        get_sat_data w st
        = (Ok pts,
           {| _sat_data_cache := Some pts;
              _shadow_intervals_cache := Some sh;
              _updated_at_cache := Some (now_cache w);
              disk := disk st1;
              logger := logger st1 |})
  end.
Proof.
  destruct (pipeline w) as [[pts sh]|e] eqn:Hp.
  - destruct (save_data_total w pts sh st) as (b & st1 & Hsave & _ & _ & _ & Hb).
    exists b, st1. split; [exact Hsave|]. split.
    + destruct b; [exact I | exact Hb].
    + unfold get_sat_data, try_except, bind, lift. rewrite Hp, Hsave. reflexivity.
  - unfold get_sat_data, try_except, bind, lift. rewrite Hp. reflexivity.
Qed.

(** C5 (amended).  [get_sat_data] never raises.  When fetch, parse or compute
    fails, the cached record and the files are left as they were, the error
    is logged and [[]] is returned.  When the generation succeeds, the
    in-memory record is replaced by the new one after [save_data] has run,
    whether [save_data] succeeded or not; a failed save is logged. *)
Theorem get_sat_data_replaces_cache_after_generation (w : world) (st : store) :
  match pipeline w with
  | Raise e =>
      get_sat_data w st
      = (Ok [],
         {| _sat_data_cache := _sat_data_cache st;
            _shadow_intervals_cache := _shadow_intervals_cache st;
            _updated_at_cache := _updated_at_cache st;
            disk := disk st;
            logger := logger st
                      ++ [(ERROR, ("Error generating satellite data: " ++ e)%string)] |})
  | Ok (pts, sh) =>
      exists b st1,
        save_data w pts sh st = (Ok b, st1) /\
        (if b then True
         else exists e,
             logger st1 = logger st ++ [(ERROR, ("Error saving data: " ++ e)%string)]) /\
        get_sat_data w st
        = (Ok pts,
           {| _sat_data_cache := Some pts;
              _shadow_intervals_cache := Some sh;
              _updated_at_cache := Some (now_cache w);
              disk := disk st1;
              logger := logger st1 |})
  end.
Proof. exact (get_sat_data_cases w st). Qed.

Lemma get_sat_data_total w st :
  exists pts st', get_sat_data w st = (Ok pts, st').
Proof.
  pose proof (get_sat_data_cases w st) as H.
  destruct (pipeline w) as [[pts sh]|e].
  - destruct H as (b & st1 & _ & _ & H). eauto.
  - eauto.
Qed.

(** [load_data] never raises. *)
Lemma load_data_total st : exists l st', load_data st = (Ok l, st').
Proof.
  run_m.
  destruct (file_exists (SAT_DATA_FILE (disk st))); cbn [negb orb]; [|eauto].
  destruct (file_exists (SHADOW_FILE (disk st))); cbn [negb orb]; [|eauto].
  destruct (read_timestamp _); [|eauto].
  destruct (json_load (SAT_DATA_FILE _)); [|eauto].
  destruct (json_load (SHADOW_FILE _)); eauto.
Qed.

(** C6.  When the cache is empty, the load from the files returns nothing,
    and the load that follows the regeneration returns nothing either,
    [sat_data] returns the empty result [{points: [], shadow_intervals: []}]
    and does not raise. *)
Theorem sat_data_degrades_to_empty (w : world) (st : store) :
  is_None (_sat_data_cache st) || is_None (_shadow_intervals_cache st) = true ->
  found_nothing (load_data st) = true ->
  found_nothing (load_data (snd (get_sat_data w (snd (load_data st))))) = true ->
  fst (sat_data w st) = Ok {| d_points := Some []; d_shadow_intervals := Some [] |}.
Proof.
  intros Hcache H1 H2.
  unfold sat_data, bind at 1, get. rewrite Hcache.
  destruct (load_data_total st) as ([[a1 b1] u1] & st1 & Hl1).
  rewrite Hl1 in H1, H2. unfold found_nothing in H1. cbn [fst snd] in H1, H2.
  unfold bind at 1. rewrite Hl1, H1.
  destruct (get_sat_data_total w st1) as (pts & st2 & Hg).
  rewrite Hg in H2. cbn [snd] in H2.
  unfold bind at 1. rewrite Hg.
  destruct (load_data_total st2) as ([[a2 b2] u2] & st3 & Hl2).
  rewrite Hl2 in H2. unfold found_nothing in H2. cbn [fst] in H2.
  unfold bind at 1. rewrite Hl2, H2.
  reflexivity.
Qed.

Lemma deserialize_dump pts :
  Forall (fun p => exists d, date p = Datetime d /\ fromisoformat (isoformat d) = Ok d) pts ->
  map _json_datetime_deserialize (map dump_point pts) = pts.
Proof.
  induction 1 as [|p pts (d & Hd & Hiso) _ IH]; [reflexivity|].
  cbn [map]. rewrite IH. f_equal.
  destruct p as [dt loc alt]. cbn in Hd. subst dt.
  unfold _json_datetime_deserialize, dump_point. cbn. rewrite Hiso. reflexivity.
Qed.

(** C7.  When the three writes go through, and the ISO text of each
    timestamp parses back to it, [load_data] after [save_data] returns the
    saved points and shadow intervals unchanged, with the time of the save,
    and installs them as the cached record. *)
Theorem load_after_save_round_trip
    (w : world) (pts : list point) (sh : list interval) (st : store) :
  (forall p, io w p = Written) ->
  Forall (fun p => exists d, date p = Datetime d /\ fromisoformat (isoformat d) = Ok d) pts ->
  fromisoformat (strip (isoformat (now_save w))) = Ok (now_save w) ->
  fst (save_data w pts sh st) = Ok true /\
  fst (load_data (snd (save_data w pts sh st)))
  = Ok (Some pts, Some sh, Some (now_save w)) /\
  _sat_data_cache (snd (load_data (snd (save_data w pts sh st)))) = Some pts /\
  _shadow_intervals_cache (snd (load_data (snd (save_data w pts sh st)))) = Some sh.
Proof.
  intros Hio Hpts Hnow.
  run_m. rewrite !Hio. run_m.
  unfold file_exists, read_timestamp, json_load. cbn [negb orb].
  rewrite Hnow, (deserialize_dump Hpts). cbn. repeat split.
Qed.

(** ** QueryService *)

Lemma out_of_range_timed start_dt end_dt t :
  out_of_range start_dt end_dt (date (timed_point t))
  = Ok (negb (within start_dt end_dt (timed_point t))).
Proof.
  destruct t as [[d l] a]. unfold out_of_range, within, date_lt, date_gt. cbn.
  destruct start_dt as [s|], end_dt as [e|]; cbn;
    repeat match goal with
           | |- context [?x <? ?y] => destruct (Z.ltb_spec x y); cbn
           | |- context [?x >? ?y] => rewrite (Z.gtb_ltb x y)
           | |- context [?x <=? ?y] => destruct (Z.leb_spec x y); cbn
           end; try reflexivity; lia.
Qed.

Lemma select_loop_timed start_dt end_dt ts : forall acc,
  for_each (select_step start_dt end_dt) (map timed_point ts) acc
  = Ok (acc ++ filter (within start_dt end_dt) (map timed_point ts)).
Proof.
  induction ts as [|t ts IH]; intros acc; cbn [map for_each filter].
  - rewrite app_nil_r. reflexivity.
  - unfold select_step at 1. rewrite out_of_range_timed. cbn [rbind].
    destruct (within start_dt end_dt (timed_point t)); cbn [negb rbind].
    + rewrite IH, <- app_assoc. reflexivity.
    + apply IH.
Qed.


(** C9.  Whatever the bounds, [get_iss_data] ends in the same store as
    [get_iss_data_raw], raises exactly when it does, and otherwise answers
    with the same points together with the whole shadow-interval list that
    [sat_data] returned; with a record in memory that list is the cached one,
    whole, for every pair of bounds. *)
Theorem shadow_query_extends_raw_query
    (w : world) (start_dt end_dt : option datetime) (st : store) :
  snd (get_iss_data w start_dt end_dt st) = snd (get_iss_data_raw w start_dt end_dt st) /\
  match get_iss_data w start_dt end_dt st,
        get_iss_data_raw w start_dt end_dt st,
        sat_data w st with
  | (Ok resp, _), (Ok pts, _), (Ok data, _) =>
      points resp = pts /\ shadowIntervals resp = d_shadow_intervals data
  | (Raise e1, _), (Raise e2, _), _ => e1 = e2
  | _, _, _ => False
  end /\
  (forall (ps : list point) (sh : list interval) (u : option datetime)
          (d : files) (lg : list (level * string)),
      let st0 := {| _sat_data_cache := Some ps;
                    _shadow_intervals_cache := Some sh;
                    _updated_at_cache := u; disk := d; logger := lg |} in
      get_iss_data w start_dt end_dt st0
      = (match select_points start_dt end_dt (Some ps) with
         | Ok res => Ok {| points := res; shadowIntervals := Some sh |}
         | Raise e => Raise e
         end, st0)).
Proof.
  split; [|split].
  - unfold get_iss_data, get_iss_data_raw, bind, lift, ret.
    destruct (sat_data w st) as [[data|e] st']; cbn; [|auto].
    destruct (select_points start_dt end_dt (d_points data)); cbn; auto.
  - unfold get_iss_data, get_iss_data_raw, bind, lift, ret.
    destruct (sat_data w st) as [[data|e] st']; cbn; [|auto].
    destruct (select_points start_dt end_dt (d_points data)); cbn; auto.
  - intros. unfold get_iss_data, sat_data, from_cache, bind, get, ret, lift.
    cbn [_sat_data_cache _shadow_intervals_cache is_None orb st0
         d_points d_shadow_intervals].
    destruct (select_points start_dt end_dt (Some ps)); reflexivity.
Qed.

Lemma synthesize_points earth epoches pts sh :
  synthesize earth epoches = Ok (pts, sh) ->
  Forall has_altitude pts /\
  exists ts, pts = map timed_point ts.
Proof.
  unfold synthesize. intros H.
  destruct (CatmullRom _) as [c|]; cbn [rbind] in H; [|discriminate].
  destruct (for_each _ _ _) as [g|] eqn:Hloop; cbn [rbind] in H; [|discriminate].
  destruct (flush epoches g); cbn [rbind] in H; [|discriminate].
  inversion H; subst.
  destruct (sample_loop_sat _ _ _ _ Hloop) as (extra & Hs & Hd & Ha).
  cbn [sat gen0 app] in Hs. rewrite Hs. split; [exact Ha|].
  clear -Hd. revert Hd. generalize (filter first_of_segment (samples epoches)).
  induction extra as [|p extra IH]; intros l Hd.
  - exists []. reflexivity.
  - destruct l as [|s l]; [discriminate|]. cbn [map] in Hd.
    inversion Hd as [[Hp Hrest]].
    destruct (IH _ Hrest) as (ts & ->).
    exists ((s_date s, location p, altitude p) :: ts).
    destruct p as [dt loc alt]. cbn in Hp. subst dt. reflexivity.
Qed.

(** C10.  Every point [get_sat_data] returns has its altitude set; after a
    successful generation these points are the cached ones, and every range
    query over them answers, with points that all have their altitude set. *)
Theorem generated_points_have_altitude (w : world) (st : store) :
  match get_sat_data w st with
  | (Ok pts, st') =>
      Forall has_altitude pts /\
      match pipeline w with
      | Ok _ =>
          _sat_data_cache st' = Some pts /\
          forall start_dt end_dt : option datetime,
          exists out,
            select_points start_dt end_dt (_sat_data_cache st') = Ok out /\
            Forall has_altitude out
      | Raise _ => pts = []
      end
  | (Raise _, _) => False
  end.
Proof.
  pose proof (get_sat_data_cases w st) as H.
  destruct (pipeline w) as [[pts sh]|e] eqn:Hp.
  - destruct H as (b & st1 & _ & _ & ->).
    unfold pipeline in Hp.
    destruct (fetched w) as [[raws earth]|]; cbn [rbind] in Hp; [|discriminate].
    destruct (decimate raws) as [epoches|]; cbn [rbind] in Hp; [|discriminate].
    destruct (synthesize_points _ _ Hp) as (Halt & ts & Hts).
    split; [exact Halt|]. cbn [_sat_data_cache]. split; [reflexivity|].
    intros start_dt end_dt. subst pts.
    exists (filter (within start_dt end_dt) (map timed_point ts)).
    split; [apply select_loop_timed|].
    apply Forall_forall. intros p Hin. apply filter_In in Hin.
    rewrite Forall_forall in Halt. apply Halt. tauto.
  - rewrite H. split; [constructor | reflexivity].
Qed.

End Properties.

(** C2.  The decimation loop runs over [range(len(raw_epoches) - 1)]: the
    last raw epoch is never examined, so replacing it changes nothing, and on
    three epochs at t0, t0 + 100 s and t0 + 500 s the output is the single
    epoch at t0, not the two epochs at t0 and t0 + 500 s. *)
Theorem decimate_never_examines_last_epoch :
  (forall (E : Externals) (raws : list raw_epoch) (r r' : raw_epoch),
      decimate (raws ++ [r]) = decimate (raws ++ [r'])) /\
  decimate Demo.raw_0_100_500 = Ok [Demo.ep Demo.t0 6800].
Proof.
  split.
  - intros E raws r r'. unfold decimate.
    now rewrite !firstn_all_but_last.
  - reflexivity.
Qed.

(** * Further properties of the code *)

Section MoreProperties.

Context {E : Externals}.

(** ** The decimation loop *)

Lemma examined_removelast {A} (l : list A) :
  firstn (List.length l - 1) l = removelast l.
Proof.
  rewrite removelast_firstn_len. f_equal. lia.
Qed.

Lemma decimate_step_cases acc r :
  match strptime (raw_date r) with
  | Ok d => decimate_step acc r = Ok acc \/
            decimate_step acc r = Ok (acc ++ [epoch_of d r])
  | Raise e => decimate_step acc r = Raise e
  end.
Proof.
  unfold decimate_step. destruct (strptime (raw_date r)) as [d|e]; cbn [rbind]; [|reflexivity].
  destruct (keeps acc d); [right | left]; reflexivity.
Qed.

Lemma decimate_step_first r :
  decimate_step [] r = rbind (strptime (raw_date r)) (fun d => Ok [epoch_of d r]).
Proof.
  unfold decimate_step. destruct (strptime (raw_date r)); reflexivity.
Qed.

Lemma decimate_loop_kept xs : forall acc out,
  for_each decimate_step xs acc = Ok out ->
  exists kept,
    out = acc ++ kept /\
    (List.length kept <= List.length xs)%nat /\
    Forall (fun e => exists r, In r xs /\ strptime (raw_date r) = Ok (edate e) /\
                               e = epoch_of (edate e) r) kept.
Proof.
  induction xs as [|r xs IH]; intros acc out H; cbn [for_each] in H.
  - inversion H; subst. exists []. rewrite app_nil_r. repeat split; constructor.
  - pose proof (decimate_step_cases acc r) as Hc.
    destruct (strptime (raw_date r)) as [d|e] eqn:Hd.
    + destruct Hc as [Hc|Hc]; rewrite Hc in H; cbn [rbind] in H;
        destruct (IH _ _ H) as (kept & -> & Hlen & Hall).
      * exists kept. split; [reflexivity|]. split; [simpl; lia|].
        eapply Forall_impl; [|exact Hall]. cbn beta.
        intros e0 (r0 & Hin & Hr0). exists r0. split; [right; exact Hin | exact Hr0].
      * exists (epoch_of d r :: kept). rewrite <- app_assoc. split; [reflexivity|].
        split; [simpl; lia|]. constructor.
        -- exists r. split; [left; reflexivity|]. split; [exact Hd | reflexivity].
        -- eapply Forall_impl; [|exact Hall]. cbn beta.
           intros e0 (r0 & Hin & Hr0). exists r0. split; [right; exact Hin | exact Hr0].
    + rewrite Hc in H. discriminate.
Qed.

(** X1.  Whatever the order and spacing of the raw epochs, the epochs the
    decimator keeps are at least 240 s apart, hence strictly increasing. *)
Theorem decimate_output_is_spaced (raws : list raw_epoch) (out : list epoch) :
  decimate raws = Ok out ->
  spaced out /\ increasing (map edate out).
Proof.
  intros H. pose proof (decimate_spaced _ H) as Hs.
  split; [exact Hs | apply spaced_increasing; exact Hs].
Qed.

(** X2.  Every epoch the decimator returns is built from one of the raw
    epochs before the last, with that epoch's parsed date, location and
    velocity; at most [len(raw_epoches) - 1] epochs are returned; and with
    two raw epochs or more the first one is always kept, at the head. *)
Theorem decimate_keeps_input_epochs (raws : list raw_epoch) (out : list epoch) :
  decimate raws = Ok out ->
  (List.length out <= List.length raws - 1)%nat /\
  Forall (fun e => exists r, In r (removelast raws) /\
                             strptime (raw_date r) = Ok (edate e) /\
                             e = epoch_of (edate e) r) out /\
  (forall r0 r1 rest, raws = r0 :: r1 :: rest ->
     exists d tl, strptime (raw_date r0) = Ok d /\ out = epoch_of d r0 :: tl).
Proof.
  unfold decimate. intros H.
  destruct (decimate_loop_kept _ _ H) as (kept & Hout & Hlen & Hall).
  cbn [app] in Hout. subst kept.
  split; [|split].
  - rewrite length_firstn in Hlen. lia.
  - rewrite <- examined_removelast. exact Hall.
  - intros r0 r1 rest ->.
    change (List.length (r0 :: r1 :: rest) - 1)%nat with (S (List.length rest)) in H.
    cbn [firstn for_each] in H. rewrite decimate_step_first in H.
    destruct (strptime (raw_date r0)) as [d|e]; cbn [rbind] in H; [|discriminate].
    destruct (decimate_loop_kept _ _ H) as (kept & -> & _).
    exists d, kept. split; reflexivity.
Qed.

Lemma decimate_loop_succeeds_iff xs : forall acc,
  (exists out, for_each decimate_step xs acc = Ok out) <->
  Forall (fun r => exists d, strptime (raw_date r) = Ok d) xs.
Proof.
  induction xs as [|r xs IH]; intros acc; cbn [for_each].
  - split; [constructor | eauto].
  - pose proof (decimate_step_cases acc r) as Hc.
    destruct (strptime (raw_date r)) as [d|e] eqn:Hd.
    + destruct Hc as [Hc|Hc]; rewrite Hc; cbn [rbind]; rewrite IH;
        (split; [intros H; constructor; [rewrite Hd; eauto | exact H]
                | intros H; inversion H; assumption]).
    + rewrite Hc. cbn [rbind]. split.
      * intros [out H]. discriminate.
      * intros H. inversion H as [|? ? [d Hd'] _]; subst. congruence.
Qed.

(** X3.  The decimation completes exactly when the date of every raw epoch
    before the last one parses; the date of the last raw epoch is never
    parsed, so a malformed one there goes unnoticed. *)
Theorem decimate_succeeds_iff_dates_parse (raws : list raw_epoch) :
  (exists out, decimate raws = Ok out) <->
  Forall (fun r => exists d, strptime (raw_date r) = Ok d) (removelast raws).
Proof.
  unfold decimate. rewrite examined_removelast. apply decimate_loop_succeeds_iff.
Qed.

(** ** Synthesis and shadow tracking over a whole run *)

Lemma synthesize_dates earth epoches pts sh :
  synthesize earth epoches = Ok (pts, sh) ->
  map date pts = map Datetime (removelast (map edate epoches)).
Proof.
  unfold synthesize. intros H.
  destruct (CatmullRom _) as [c|]; cbn [rbind] in H; [|discriminate].
  destruct (for_each _ _ _) as [g|] eqn:Hloop; cbn [rbind] in H; [|discriminate].
  destruct (flush epoches g); cbn [rbind] in H; [|discriminate].
  inversion H; subst.
  destruct (sample_loop_sat _ _ _ _ Hloop) as (extra & Hs & Hd & _).
  cbn [sat gen0 app] in Hs. rewrite Hs, Hd.
  unfold samples. rewrite <- first_samples_dates with (i := 0%nat).
  rewrite map_map. reflexivity.
Qed.

Lemma spaced_apart l : spaced l -> apart_240 (map edate l).
Proof.
  induction l as [|e0 l IH]; intros H; [exact I|].
  destruct l as [|e1 l]; [exact I|].
  destruct H as [Hgap H]. split; [exact Hgap | exact (IH H)].
Qed.

Lemma apart_removelast l : apart_240 l -> apart_240 (removelast l).
Proof.
  induction l as [|a l IH]; intros H; [exact I|].
  destruct l as [|b l]; [exact I|].
  destruct l as [|c l]; [exact I|].
  destruct H as [Hab H]. split; [exact Hab|]. exact (IH H).
Qed.

(** X4.  A run of the whole pipeline that completes returns points stamped
    with datetimes that are at least 240 s apart: the 5 s samples between two
    decimated epochs are not part of the output. *)
Theorem pipeline_points_are_240s_apart
    (w : world) (pts : list point) (sh : list interval) :
  pipeline w = Ok (pts, sh) ->
  exists ds, map date pts = map Datetime ds /\ apart_240 ds.
Proof.
  unfold pipeline. intros H.
  destruct (fetched w) as [[raws earth]|]; cbn [rbind] in H; [|discriminate].
  destruct (decimate raws) as [epoches|] eqn:Hdec; cbn [rbind] in H; [|discriminate].
  exists (removelast (map edate epoches)). split.
  - eapply synthesize_dates; exact H.
  - apply apart_removelast, spaced_apart. eapply decimate_spaced; exact Hdec.
Qed.

Lemma synthesize_short earth epoches :
  (List.length epoches <= 1)%nat ->
  synthesize earth epoches
  = rbind (CatmullRom (map elocation epoches)) (fun _ => Ok ([], [])).
Proof.
  intros Hlen. unfold synthesize.
  assert (Hs : samples epoches = []).
  { destruct epoches as [|e0 [|e1 rest]]; [reflexivity | reflexivity | simpl in Hlen; lia]. }
  rewrite Hs. destruct (CatmullRom _); reflexivity.
Qed.

(** X5.  With at most two raw state vectors the decimator keeps at most one
    epoch, no segment exists, and the pipeline either raises (in the curve
    constructor) or returns an empty trajectory with no shadow interval. *)
Theorem pipeline_needs_three_raw_epochs
    (w : world) (raws : list raw_epoch) (earth : eop) :
  fetched w = Ok (raws, earth) ->
  (List.length raws <= 2)%nat ->
  pipeline w = Ok ([], []) \/ exists e, pipeline w = Raise e.
Proof.
  intros Hf Hlen. unfold pipeline. rewrite Hf. cbn [rbind].
  destruct (decimate raws) as [epoches|e] eqn:Hdec; cbn [rbind]; [|right; eauto].
  unfold decimate in Hdec.
  destruct (decimate_loop_kept _ _ Hdec) as (kept & Hout & Hk & _).
  cbn [app] in Hout. subst kept. rewrite length_firstn in Hk.
  rewrite synthesize_short by lia.
  destruct (CatmullRom _); cbn [rbind]; [left; reflexivity | right; eauto].
Qed.

Lemma increasing_snoc l d :
  increasing l -> Forall (fun x => x < d) l -> increasing (l ++ [d]).
Proof.
  intros Hl Hd. apply increasing_app_bound with (m := d); auto.
  - exact I.
  - constructor; [lia | constructor].
Qed.

Lemma timeline_open ivs s0 :
  timeline ivs (Some s0) = timeline ivs None ++ [s0].
Proof. unfold timeline. rewrite app_nil_r. reflexivity. Qed.

Lemma timeline_close ivs s0 d :
  timeline (ivs ++ [(s0, d)]) None = timeline ivs (Some s0) ++ [d].
Proof.
  unfold timeline. rewrite flat_map_app, app_nil_r. cbn [flat_map fst snd].
  rewrite app_nil_r, <- app_assoc. reflexivity.
Qed.

Lemma Forall_lt_of_le (l : list Z) m d :
  Forall (fun x => x <= m) l -> m < d -> Forall (fun x => x < d) l.
Proof. intros H Hm. eapply Forall_impl; [|exact H]. cbn beta; intros; lia. Qed.

Lemma Forall_le_snoc (l : list Z) m d :
  Forall (fun x => x <= m) l -> m < d -> Forall (fun x => x <= d) (l ++ [d]).
Proof.
  intros H Hm. apply Forall_app. split.
  - eapply Forall_impl; [|exact H]. cbn beta; intros; lia.
  - constructor; [lia | constructor].
Qed.

Lemma track_shadow_ordered b d g m :
  ordered_upto (shadow_intervals g) (shadow_start g) m -> m < d ->
  ordered_upto (shadow_intervals (track_shadow b d g))
               (shadow_start (track_shadow b d g)) d.
Proof.
  intros (ivs & Hst & Hinc & Hle) Hm. unfold track_shadow.
  destruct b, (shadow_start g) as [s0|] eqn:Hs; cbn [shadow_intervals shadow_start];
    rewrite ?Hs; cbn [shadow_intervals shadow_start].
  - exists ivs. split; [exact Hst|]. split; [exact Hinc|].
    eapply Forall_impl; [|exact Hle]. cbn beta; intros; lia.
  - exists ivs. split; [exact Hst|]. rewrite timeline_open. split.
    + apply increasing_snoc; [exact Hinc | eapply Forall_lt_of_le; eauto].
    + eapply Forall_le_snoc; eauto.
  - exists (ivs ++ [(s0, d)]). split.
    + rewrite map_app, Hst. reflexivity.
    + rewrite timeline_close. split.
      * apply increasing_snoc; [exact Hinc | eapply Forall_lt_of_le; eauto].
      * eapply Forall_le_snoc; eauto.
  - exists ivs. split; [exact Hst|]. split; [exact Hinc|].
    eapply Forall_impl; [|exact Hle]. cbn beta; intros; lia.
Qed.

Lemma sample_loop_ordered c earth B xs : forall g g' m,
  for_each (sample_body c earth) xs g = Ok g' ->
  ordered_upto (shadow_intervals g) (shadow_start g) m ->
  m < B ->
  increasing (m :: map s_date xs) ->
  Forall (fun d => d < B) (map s_date xs) ->
  exists m', m' < B /\ ordered_upto (shadow_intervals g') (shadow_start g') m'.
Proof.
  induction xs as [|s xs IH]; intros g g' m H Hord HmB Hinc HB; cbn [for_each] in H.
  - inversion H; subst. eauto.
  - destruct (sample_body c earth g s) as [g1|] eqn:Hb; cbn [rbind] in H; [|discriminate].
    destruct (sample_body_shadow _ _ _ _ Hb) as (b & Hi & Hs).
    cbn [map] in Hinc, HB. destruct Hinc as [Hlt Hinc].
    inversion HB as [|? ? HsB HB']; subst.
    apply (IH g1 g' (s_date s) H); auto.
    rewrite Hi, Hs. apply track_shadow_ordered with (m := m); assumption.
Qed.

Lemma synthesize_intervals_ordered earth epoches pts sh :
  increasing (map edate epoches) ->
  synthesize earth epoches = Ok (pts, sh) ->
  exists ivs, sh = map stamp ivs /\ increasing (timeline ivs None).
Proof.
  intros Hinc H. unfold synthesize in H.
  destruct (CatmullRom _) as [c|]; cbn [rbind] in H; [|discriminate].
  destruct (for_each _ _ _) as [g|] eqn:Hloop; cbn [rbind] in H; [|discriminate].
  destruct (last_opt epoches) as [e|] eqn:Hlast.
  - assert (Hstart : exists m, m < edate e /\ increasing (m :: map s_date (samples epoches))).
    { pose proof (samples_increasing epoches 0 Hinc) as Hsi.
      pose proof (samples_before_last_epoch epoches 0 Hinc Hlast) as Hsb.
      fold (samples epoches) in Hsi, Hsb.
      destruct (map s_date (samples epoches)) as [|d0 ds].
      - exists (edate e - 1). split; [lia | exact I].
      - inversion Hsb; subst. exists (d0 - 1). split; [lia|]. split; [lia | exact Hsi]. }
    destruct Hstart as (m & HmB & Hm).
    destruct (@sample_loop_ordered c earth (edate e) (samples epoches) gen0 g m Hloop)
      as (m' & Hm'B & ivs & Hst & Hi & Hle).
    + exists []. repeat split; constructor.
    + exact HmB.
    + exact Hm.
    + apply samples_before_last_epoch; assumption.
    + unfold flush in H. rewrite Hlast in H.
      destruct (shadow_start g) as [s0|]; cbn [rbind] in H; inversion H; subst.
      * exists (ivs ++ [(s0, edate e)]). split.
        -- rewrite map_app, Hst. reflexivity.
        -- rewrite timeline_close. apply increasing_snoc; [exact Hi|].
           eapply Forall_lt_of_le; eauto.
      * exists ivs. split; assumption.
  - destruct epoches as [|e0 rest].
    + cbn in Hloop. inversion Hloop; subst. cbn in H. inversion H; subst.
      exists []. split; [reflexivity | exact I].
    + exfalso. clear -Hlast. revert e0 Hlast.
      induction rest as [|e1 rest IH]; intros e0 H; [discriminate|].
      apply (IH e1). exact H.
Qed.

(** X6.  In every completed run of the pipeline the shadow intervals are the
    stamps of datetime pairs whose bounds, read in order, are strictly
    increasing: each interval starts before it ends, and each one ends before
    the next one starts. *)
Theorem pipeline_shadow_intervals_are_ordered
    (w : world) (pts : list point) (sh : list interval) :
  pipeline w = Ok (pts, sh) ->
  exists ivs, sh = map stamp ivs /\ increasing (timeline ivs None).
Proof.
  unfold pipeline. intros H.
  destruct (fetched w) as [[raws earth]|]; cbn [rbind] in H; [|discriminate].
  destruct (decimate raws) as [epoches|] eqn:Hdec; cbn [rbind] in H; [|discriminate].
  eapply synthesize_intervals_ordered; [|exact H].
  apply spaced_increasing. eapply decimate_spaced; exact Hdec.
Qed.

(** ** The cache and its files *)

Ltac run_store :=
  unfold save_data, load_data, get_sat_data, try_except, bind, ret, lift, get, log,
    set_disk, set_cache, write_sat, write_shadow, write_timestamp, write_file,
    logged, cached;
  cbn [fst snd disk logger _sat_data_cache _shadow_intervals_cache _updated_at_cache
       SAT_DATA_FILE SHADOW_FILE TIMESTAMP_FILE].

Lemma load_data_cases st :
  match readable (disk st) with
  | Some (pts, sh, u) =>
      load_data st = (Ok (Some pts, Some sh, Some u), cached st pts sh u)
  | None =>
      exists entry, load_data st = (Ok (None, None, None), logged st entry)
  end.
Proof.
  unfold readable, json_load. run_store. unfold file_exists, json_load.
  destruct (SAT_DATA_FILE (disk st)) as [[js|]|];
    destruct (SHADOW_FILE (disk st)) as [[sh|]|];
    destruct (read_timestamp (TIMESTAMP_FILE (disk st))) as [u|e];
    cbn [negb orb]; eauto.
Qed.

(** X7.  [load_data] is all or nothing and never writes: when the three
    files can all be read back it returns their contents and installs them as
    the cached record without logging; otherwise (a file missing, truncated,
    or a timestamp that does not parse) it returns three Nones, leaves the
    cached record as it was and logs one entry.  It never raises. *)
Theorem load_data_is_all_or_nothing (st : store) :
  disk (snd (load_data st)) = disk st /\
  match readable (disk st) with
  | Some (pts, sh, u) =>
      fst (load_data st) = Ok (Some pts, Some sh, Some u) /\
      _sat_data_cache (snd (load_data st)) = Some pts /\
      _shadow_intervals_cache (snd (load_data st)) = Some sh /\
      _updated_at_cache (snd (load_data st)) = Some u /\
      logger (snd (load_data st)) = logger st
  | None =>
      fst (load_data st) = Ok (None, None, None) /\
      _sat_data_cache (snd (load_data st)) = _sat_data_cache st /\
      _shadow_intervals_cache (snd (load_data st)) = _shadow_intervals_cache st /\
      _updated_at_cache (snd (load_data st)) = _updated_at_cache st /\
      exists entry, logger (snd (load_data st)) = logger st ++ [entry]
  end.
Proof.
  pose proof (load_data_cases st) as H.
  destruct (readable (disk st)) as [[[pts sh] u]|].
  - rewrite H. repeat split.
  - destruct H as [entry H]. rewrite H. repeat split. exists entry. reflexivity.
Qed.

(** X8.  [save_data] returns True exactly when each of the three writes went
    through, and whatever happens it leaves the cached record as it was. *)
Theorem save_data_true_iff_all_written
    (w : world) (pts : list point) (sh : list interval) (st : store) :
  (fst (save_data w pts sh st) = Ok true <-> forall p, io w p = Written) /\
  _sat_data_cache (snd (save_data w pts sh st)) = _sat_data_cache st /\
  _shadow_intervals_cache (snd (save_data w pts sh st)) = _shadow_intervals_cache st /\
  _updated_at_cache (snd (save_data w pts sh st)) = _updated_at_cache st.
Proof.
  run_store.
  destruct (io w PSat) eqn:H1; run_store;
    [|repeat split; try discriminate; intros H; specialize (H PSat); congruence..].
  destruct (io w PShadow) eqn:H2; run_store;
    [|repeat split; try discriminate; intros H; specialize (H PShadow); congruence..].
  destruct (io w PTimestamp) eqn:H3; run_store;
    [|repeat split; try discriminate; intros H; specialize (H PTimestamp); congruence..].
  split; [|repeat split].
  split; [intros _ p; destruct p; assumption | reflexivity].
Qed.

Lemma readable_generation pts sh now :
  points_round_trip pts ->
  fromisoformat (strip (isoformat now)) = Ok now ->
  readable (generation_files pts sh now) = Some (pts, sh, now).
Proof.
  intros Hpts Hnow. unfold readable, generation_files, read_timestamp.
  cbn [SAT_DATA_FILE SHADOW_FILE TIMESTAMP_FILE].
  rewrite Hnow, (deserialize_dump Hpts). reflexivity.
Qed.

Lemma save_data_all_written w pts sh st :
  (forall p, io w p = Written) ->
  save_data w pts sh st
  = (Ok true, {| _sat_data_cache := _sat_data_cache st;
                 _shadow_intervals_cache := _shadow_intervals_cache st;
                 _updated_at_cache := _updated_at_cache st;
                 disk := generation_files pts sh (now_save w);
                 logger := logger st |}).
Proof. intros Hio. run_store. rewrite !Hio. reflexivity. Qed.

Lemma get_sat_data_generated w st pts sh :
  pipeline w = Ok (pts, sh) ->
  exists b st1,
    save_data w pts sh st = (Ok b, st1) /\
    get_sat_data w st = (Ok pts, cached st1 pts sh (now_cache w)).
Proof.
  intros Hp. pose proof (get_sat_data_cases w st) as H. rewrite Hp in H.
  destruct H as (b & st1 & Hs & _ & Hg). exists b, st1. split; assumption.
Qed.

Lemma sat_data_warm w st pts sh :
  _sat_data_cache st = Some pts ->
  _shadow_intervals_cache st = Some sh ->
  sat_data w st = (Ok {| d_points := Some pts; d_shadow_intervals := Some sh |}, st).
Proof.
  intros H1 H2. unfold sat_data, from_cache, bind, get, ret. rewrite H1, H2.
  cbn [is_None orb]. rewrite H1, H2. reflexivity.
Qed.

(** [sat_data] when the cache is empty, in terms of the calls it makes. *)
Lemma sat_data_cold w st :
  cache_is_empty st = true ->
  sat_data w st
  = match readable (disk st) with
    | Some (pts, sh, u) =>
        (Ok {| d_points := Some pts; d_shadow_intervals := Some sh |}, cached st pts sh u)
    | None =>
        let st1 := snd (load_data st) in
        let st2 := snd (get_sat_data w st1) in
        match readable (disk st2) with
        | Some (pts, sh, u) =>
            (Ok {| d_points := Some pts; d_shadow_intervals := Some sh |},
             cached st2 pts sh u)
        | None =>
            (Ok {| d_points := Some []; d_shadow_intervals := Some [] |},
             logged (snd (load_data st2))
                    (ERROR, "Failed to generate or load satellite data"))
        end
    end.
Proof.
  unfold cache_is_empty. intros Hc.
  unfold sat_data, bind at 1, get. rewrite Hc.
  pose proof (load_data_cases st) as H1.
  destruct (readable (disk st)) as [[[pts sh] u]|].
  - unfold bind at 1. rewrite H1. reflexivity.
  - destruct H1 as [entry H1]. unfold bind at 1. rewrite H1. cbn [is_None orb snd].
    destruct (get_sat_data_total w (logged st entry)) as (gp & st2 & Hg).
    unfold bind at 1. rewrite Hg. cbn [snd].
    pose proof (load_data_cases st2) as H2.
    destruct (readable (disk st2)) as [[[pts sh] u]|].
    + unfold bind at 1. rewrite H2. reflexivity.
    + destruct H2 as [entry2 H2]. unfold bind at 1. rewrite H2. reflexivity.
Qed.

(** X9.  A query on an empty cache with no readable files, when the
    generation succeeds and the three writes go through, answers with the
    freshly generated points and shadow intervals as read back from the
    files, and the cached timestamp is the time of the save. *)
Theorem cold_query_returns_generated_data
    (w : world) (st : store) (pts : list point) (sh : list interval) :
  cache_is_empty st = true ->
  readable (disk st) = None ->
  pipeline w = Ok (pts, sh) ->
  (forall p, io w p = Written) ->
  points_round_trip pts ->
  fromisoformat (strip (isoformat (now_save w))) = Ok (now_save w) ->
  fst (sat_data w st) = Ok {| d_points := Some pts; d_shadow_intervals := Some sh |} /\
  _updated_at_cache (snd (sat_data w st)) = Some (now_save w) /\
  disk (snd (sat_data w st)) = generation_files pts sh (now_save w).
Proof.
  intros Hc Hr Hp Hio Hpts Hnow.
  rewrite (sat_data_cold w st Hc), Hr. cbn zeta.
  destruct (get_sat_data_generated w (snd (load_data st)) Hp) as (b & st1 & Hs & Hg).
  rewrite save_data_all_written in Hs by exact Hio. inversion Hs; subst b st1.
  rewrite Hg. cbn [snd cached disk].
  rewrite readable_generation by assumption. repeat split.
Qed.

Lemma save_data_first_write_fails w pts sh st :
  io w PSat <> Written ->
  readable (disk st) = None ->
  readable (disk (snd (save_data w pts sh st))) = None.
Proof.
  intros Hio Hr. run_store.
  destruct (io w PSat) eqn:H1; [congruence| |]; run_store.
  - exact Hr.
  - unfold readable. cbn [SAT_DATA_FILE]. reflexivity.
Qed.

(** X10.  When the cache is empty, no files can be read, the generation
    succeeds but the first write of the save fails, the query answers with
    the empty result although the generated record is now cached; the next
    query, whatever the outside world does, answers with the generated
    points and shadow intervals. *)
Theorem cold_query_after_failed_save
    (w : world) (st : store) (pts : list point) (sh : list interval) :
  cache_is_empty st = true ->
  readable (disk st) = None ->
  pipeline w = Ok (pts, sh) ->
  io w PSat <> Written ->
  fst (sat_data w st) = Ok {| d_points := Some []; d_shadow_intervals := Some [] |} /\
  _sat_data_cache (snd (sat_data w st)) = Some pts /\
  forall w', fst (sat_data w' (snd (sat_data w st)))
             = Ok {| d_points := Some pts; d_shadow_intervals := Some sh |}.
Proof.
  intros Hc Hr Hp Hio.
  rewrite (sat_data_cold w st Hc), Hr. cbn zeta.
  pose proof (load_data_cases st) as H1. rewrite Hr in H1. destruct H1 as [entry H1].
  rewrite H1. cbn [snd].
  destruct (get_sat_data_generated w (logged st entry) Hp) as (b & st1 & Hs & Hg).
  rewrite Hg. cbn [snd].
  assert (Hr1 : readable (disk st1) = None).
  { replace st1 with (snd (save_data w pts sh (logged st entry))) by (rewrite Hs; reflexivity).
    apply save_data_first_write_fails; [exact Hio | exact Hr]. }
  change (disk (cached st1 pts sh (now_cache w))) with (disk st1). rewrite Hr1.
  pose proof (load_data_cases (cached st1 pts sh (now_cache w))) as H2.
  change (disk (cached st1 pts sh (now_cache w))) with (disk st1) in H2.
  rewrite Hr1 in H2. destruct H2 as [entry2 H2]. rewrite H2. cbn [fst snd].
  split; [reflexivity|]. split; [reflexivity|].
  intros w'. rewrite (@sat_data_warm w' _ pts sh); reflexivity.
Qed.

(** ** Queries *)

Lemma out_of_range_unbounded d : out_of_range None None d = Ok false.
Proof. reflexivity. Qed.



Lemma select_loop_unbounded ps : forall acc,
  for_each (select_step None None) ps acc = Ok (acc ++ ps).
Proof.
  induction ps as [|p ps IH]; intros acc; cbn [for_each].
  - rewrite app_nil_r. reflexivity.
  - unfold select_step at 1. rewrite out_of_range_unbounded. cbn [rbind].
    rewrite IH, <- app_assoc. reflexivity.
Qed.



Lemma sat_data_answers w st :
  exists pts sh st',
    sat_data w st = (Ok {| d_points := Some pts; d_shadow_intervals := Some sh |}, st').
Proof.
  destruct (cache_is_empty st) eqn:Hc.
  - rewrite (sat_data_cold w st Hc).
    destruct (readable (disk st)) as [[[pts sh] u]|]; [eauto|]. cbn zeta.
    destruct (readable _) as [[[pts sh] u]|]; eauto.
  - unfold cache_is_empty in Hc.
    destruct (_sat_data_cache st) as [pts|] eqn:H1; [|discriminate].
    destruct (_shadow_intervals_cache st) as [sh|] eqn:H2; [|discriminate].
    exists pts, sh, st. apply sat_data_warm; assumption.
Qed.

(** X12.  [sat_data] never raises and always hands back two lists, never
    None; a request without bounds therefore never fails: the raw handler
    returns every point [sat_data] returned and the full handler adds the
    shadow intervals. *)
Theorem unbounded_requests_always_answer (w : world) (st : store) :
  exists pts sh st',
    sat_data w st = (Ok {| d_points := Some pts; d_shadow_intervals := Some sh |}, st') /\
    get_iss_data_raw w None None st = (Ok pts, st') /\
    get_iss_data w None None st = (Ok {| points := pts; shadowIntervals := Some sh |}, st').
Proof.
  destruct (sat_data_answers w st) as (pts & sh & st' & H).
  exists pts, sh, st'. split; [exact H|].
  unfold get_iss_data_raw, get_iss_data, bind, lift, ret. rewrite H.
  cbn [d_points d_shadow_intervals]. unfold select_points.
  rewrite select_loop_unbounded. split; reflexivity.
Qed.

(** ** [last_updated], the scheduled refresh and the start-up *)

Lemma last_updated_cases st :
  last_updated st
  = match _updated_at_cache st with
    | Some u => (Ok (Some (isoformat u)), st)
    | None =>
        match read_timestamp (TIMESTAMP_FILE (disk st)) with
        | Ok u => (Ok (Some (isoformat u)),
                   {| _sat_data_cache := _sat_data_cache st;
                      _shadow_intervals_cache := _shadow_intervals_cache st;
                      _updated_at_cache := Some u;
                      disk := disk st;
                      logger := logger st |})
        | Raise _ => (Ok None, st)
        end
    end.
Proof.
  unfold last_updated, updated_at_isoformat, try_except, set_updated_at, bind, get, ret, lift.
  destruct (_updated_at_cache st) as [u|] eqn:Hu; cbn [is_None].
  - rewrite Hu. reflexivity.
  - destruct (read_timestamp _); reflexivity.
Qed.

(** X13.  [last_updated] never raises, never logs and changes nothing but
    the cached timestamp; it answers None exactly when no timestamp is cached
    and the timestamp file cannot be read. *)
Theorem last_updated_only_fills_the_timestamp (st : store) :
  exists r,
    fst (last_updated st) = Ok r /\
    _sat_data_cache (snd (last_updated st)) = _sat_data_cache st /\
    _shadow_intervals_cache (snd (last_updated st)) = _shadow_intervals_cache st /\
    disk (snd (last_updated st)) = disk st /\
    logger (snd (last_updated st)) = logger st /\
    (r = None <->
     _updated_at_cache st = None /\
     exists e, read_timestamp (TIMESTAMP_FILE (disk st)) = Raise e).
Proof.
  rewrite last_updated_cases.
  destruct (_updated_at_cache st) as [u|] eqn:Hu.
  - eexists. repeat split; try discriminate. intros [H _]. discriminate.
  - destruct (read_timestamp _) as [u|e] eqn:Hr.
    + eexists. repeat split; try discriminate. intros [_ [e He]]. discriminate.
    + exists None. repeat split. eauto.
Qed.

(** X14.  After a generation that succeeded, [last_updated] reports the
    clock reading taken by [get_sat_data], whether the save went through or
    not; after a generation that failed it reports what it would have
    reported before. *)
Theorem last_updated_follows_the_cache (w : world) (st : store) :
  match pipeline w with
  | Ok _ =>
      last_updated (snd (get_sat_data w st))
      = (Ok (Some (isoformat (now_cache w))), snd (get_sat_data w st))
  | Raise _ =>
      fst (last_updated (snd (get_sat_data w st))) = fst (last_updated st)
  end.
Proof.
  pose proof (get_sat_data_cases w st) as H.
  destruct (pipeline w) as [[pts sh]|e].
  - destruct H as (b & st1 & _ & _ & ->). cbn [snd].
    rewrite last_updated_cases. reflexivity.
  - rewrite H. cbn [snd]. rewrite !last_updated_cases.
    cbn [_updated_at_cache disk].
    destruct (_updated_at_cache st); [reflexivity|].
    destruct (read_timestamp _); reflexivity.
Qed.

(** X15.  A scheduled refresh never raises.  When the generation fails the
    cached record and the files stay as they were and the log gains the start
    entry, the error and the completion entry; when it succeeds the new
    record is cached. *)
Theorem refresh_keeps_stale_record_on_failure (w : world) (st : store) :
  match pipeline w with
  | Raise e =>
      refresh_satellite_data w st
      = (Ok tt,
         {| _sat_data_cache := _sat_data_cache st;
            _shadow_intervals_cache := _shadow_intervals_cache st;
            _updated_at_cache := _updated_at_cache st;
            disk := disk st;
            logger := logger st
              ++ [(INFO, "Starting scheduled satellite data refresh")]
              ++ [(ERROR, ("Error generating satellite data: " ++ e)%string)]
              ++ [(INFO, "Completed scheduled satellite data refresh")] |})
  | Ok (pts, sh) =>
      fst (refresh_satellite_data w st) = Ok tt /\
      _sat_data_cache (snd (refresh_satellite_data w st)) = Some pts /\
      _shadow_intervals_cache (snd (refresh_satellite_data w st)) = Some sh /\
      _updated_at_cache (snd (refresh_satellite_data w st)) = Some (now_cache w)
  end.
Proof.
  assert (Hr : refresh_satellite_data w st
               = let (r, st1) := get_sat_data w
                                   (logged st (INFO, "Starting scheduled satellite data refresh")) in
                 match r with
                 | Ok _ => (Ok tt, logged st1 (INFO, "Completed scheduled satellite data refresh"))
                 | Raise e => (Raise e, st1)
                 end) by reflexivity.
  pose proof (get_sat_data_cases w
                (logged st (INFO, "Starting scheduled satellite data refresh"))) as H.
  destruct (pipeline w) as [[pts sh]|e].
  - destruct H as (b & st1 & _ & _ & Hg). rewrite Hr, Hg. repeat split.
  - rewrite Hr, H. unfold logged.
    cbn [_sat_data_cache _shadow_intervals_cache _updated_at_cache disk logger].
    rewrite <- !app_assoc. reflexivity.
Qed.

Lemma initialize_cache_total w st :
  exists st', initialize_cache w st = (Ok tt, st').
Proof.
  unfold initialize_cache, bind at 1.
  destruct (load_data_total st) as (l1 & st1 & H1). rewrite H1.
  unfold bind at 1, get.
  destruct (is_None (_sat_data_cache st1) || is_None (_shadow_intervals_cache st1)).
  - unfold bind at 1. destruct (get_sat_data_total w st1) as (g & st2 & H2). rewrite H2.
    unfold bind at 1. destruct (load_data_total st2) as (l3 & st3 & H3). rewrite H3.
    unfold ret. eauto.
  - unfold ret. eauto.
Qed.

Lemma initialize_cache_readable w st pts sh u :
  readable (disk st) = Some (pts, sh, u) ->
  initialize_cache w st = (Ok tt, cached st pts sh u).
Proof.
  intros Hr. pose proof (load_data_cases st) as H. rewrite Hr in H.
  unfold initialize_cache, bind at 1. rewrite H. reflexivity.
Qed.

(** X16.  The start-up never raises and always leaves the scheduler running,
    also when no data could be loaded or generated; the shutdown hook is
    registered only when the scheduler was not yet running. *)
Theorem initialize_always_starts_scheduler (w : world) (p : process) :
  exists p',
    initialize_data_store w p = (Ok tt, p') /\
    scheduler_running p' = true /\
    atexit_hooks p' = (if scheduler_running p then atexit_hooks p
                       else S (atexit_hooks p)).
Proof.
  unfold initialize_data_store.
  destruct (initialize_cache_total w (mem p)) as [st' H]. rewrite H.
  eexists. split; [reflexivity|].
  unfold start_scheduler. cbn [scheduler_running].
  destruct (scheduler_running p) eqn:Hr; cbn [negb scheduler_running atexit_hooks];
    auto.
Qed.

(** X17.  When the three files can be read back at start-up, the cached
    record becomes what the files hold, whatever was cached before, and
    nothing is fetched, generated or written: the outcome does not depend on
    the outside world. *)
Theorem initialize_from_readable_files
    (w : world) (p : process) (pts : list point) (sh : list interval) (u : datetime) :
  readable (disk (mem p)) = Some (pts, sh, u) ->
  _sat_data_cache (mem (snd (initialize_data_store w p))) = Some pts /\
  _shadow_intervals_cache (mem (snd (initialize_data_store w p))) = Some sh /\
  _updated_at_cache (mem (snd (initialize_data_store w p))) = Some u /\
  disk (mem (snd (initialize_data_store w p))) = disk (mem p) /\
  forall w', initialize_data_store w' p = initialize_data_store w p.
Proof.
  intros Hr. unfold initialize_data_store.
  rewrite (initialize_cache_readable w _ Hr).
  split; [|split; [|split; [|split]]];
    try (unfold start_scheduler; destruct (scheduler_running p); reflexivity).
  intros w'. rewrite (initialize_cache_readable w' _ Hr). reflexivity.
Qed.

(** X18.  Stale serve: when a record is cached and a scheduled refresh
    fails, every later request, whatever its bounds, gets the answer it would
    have got without the refresh. *)
Theorem failed_refresh_serves_stale_record
    (w : world) (st : store) (pts : list point) (sh : list interval) (e : exn) :
  _sat_data_cache st = Some pts ->
  _shadow_intervals_cache st = Some sh ->
  pipeline w = Raise e ->
  forall (w' : world) (start_dt end_dt : option datetime),
    fst (get_iss_data w' start_dt end_dt (snd (refresh_satellite_data w st)))
    = fst (get_iss_data w' start_dt end_dt st) /\
    fst (get_iss_data_raw w' start_dt end_dt (snd (refresh_satellite_data w st)))
    = fst (get_iss_data_raw w' start_dt end_dt st).
Proof.
  intros H1 H2 Hp w' start_dt end_dt.
  assert (Hr : refresh_satellite_data w st
               = let (r, st1) := get_sat_data w
                                   (logged st (INFO, "Starting scheduled satellite data refresh")) in
                 match r with
                 | Ok _ => (Ok tt, logged st1 (INFO, "Completed scheduled satellite data refresh"))
                 | Raise e => (Raise e, st1)
                 end) by reflexivity.
  pose proof (get_sat_data_cases w
                (logged st (INFO, "Starting scheduled satellite data refresh"))) as H.
  rewrite Hp in H. rewrite Hr, H. cbn [snd].
  unfold get_iss_data, get_iss_data_raw, bind.
  rewrite (@sat_data_warm w' st pts sh H1 H2).
  rewrite (@sat_data_warm w' _ pts sh); [|exact H1 | exact H2].
  cbn [d_points d_shadow_intervals]. unfold lift, ret.
  destruct (select_points start_dt end_dt (Some pts)); split; reflexivity.
Qed.


End MoreProperties.

(** * Worked examples *)

Import Demo.



(** C3, as stated, fails: the body enters the shadow at the last sample,
    t0 + 235 s, and the interval is closed at the last epoch, t0 + 240 s;
    and the stream [false, true, true] sampled from t0 gives the interval
    from t0 + 5 s to the last epoch, t0 + 15 s, not to t0 + 10 s. *)
Lemma flush_ends_after_last_sample :
  pipeline world_ok = Ok (pts_a, [(timestamp (t0 + seconds 235), timestamp (t0 + seconds 240))]) /\
  last_opt (map s_date (samples epoches_0_240)) = Some (t0 + seconds 235) /\
  timestamp (t0 + seconds 240) <> timestamp (t0 + seconds 235) /\
  map s_date (samples epoches_0_15) = [t0; t0 + seconds 5; t0 + seconds 10] /\
  for_each (sample_body (map elocation epoches_0_15) tt) (samples epoches_0_15) gen0
  = Ok (detect [(false, t0); (true, t0 + seconds 5); (true, t0 + seconds 10)]
               {| sat := [timed_point (t0, (500, 6370, 0), Some 18)];
                  shadow_intervals := []; shadow_start := None |}) /\
  synthesize tt epoches_0_15
  = Ok ([timed_point (t0, (500, 6370, 0), Some 18)],
        [(timestamp (t0 + seconds 5), timestamp (t0 + seconds 15))]) /\
  [(timestamp (t0 + seconds 5), timestamp (t0 + seconds 15))]
  <> [(timestamp (t0 + seconds 5), timestamp (t0 + seconds 10))].
Proof. repeat split; try reflexivity; vm_compute; discriminate. Qed.

Lemma open_interval_flushed_at_last_epoch_witness :
  exists e,
    last_opt epoches_0_240 = Some e /\
    synthesize tt epoches_0_240
    = Ok (pts_a, [] ++ [(timestamp (t0 + seconds 235), timestamp (edate e))]) /\
    Forall (fun d => d < edate e) (map s_date (samples epoches_0_240)).
Proof.
  refine (proj1 (@open_interval_flushed_at_last_epoch externals tt epoches_0_240
                   (map elocation epoches_0_240)
                   {| sat := pts_a; shadow_intervals := [];
                      shadow_start := Some (t0 + seconds 235) |}
                   (t0 + seconds 235) _ _ _ _)).
  - vm_compute; auto.
  - reflexivity.
  - reflexivity.
  - reflexivity.
Defined.

(** The store [warm] is the one a cold start reaches by generating and
    saving generation A. *)
Lemma warm_after_first_generation :
  get_sat_data world_ok cold = (Ok pts_a, warm).
Proof. reflexivity. Qed.

(** C4, as stated, fails: generation A is on disk, the save of generation B
    cannot open the shadow file, and the next load returns the points of B
    with the shadow intervals and the timestamp of A. *)
Lemma failed_save_leaves_mixed_generations :
  disk warm = generation_files pts_a sh_a (t0 + seconds 43200) /\
  fst (save_data world_b_shadow_locked pts_b sh_b warm) = Ok false /\
  fst (load_data (snd (save_data world_b_shadow_locked pts_b sh_b warm)))
  = Ok (Some pts_b, Some sh_a, Some (t0 + seconds 43200)) /\
  pts_b <> pts_a /\ sh_a <> sh_b.
Proof. repeat split; try reflexivity; discriminate. Qed.

(** C5, as stated, fails: generation B is computed, no file can be written,
    and the cached record is replaced by B all the same while the files still
    hold A. *)
Lemma failed_save_still_replaces_cache :
  _sat_data_cache warm = Some pts_a /\
  fst (save_data world_b_unwritable pts_b sh_b warm) = Ok false /\
  fst (get_sat_data world_b_unwritable warm) = Ok pts_b /\
  _sat_data_cache (snd (get_sat_data world_b_unwritable warm)) = Some pts_b /\
  _shadow_intervals_cache (snd (get_sat_data world_b_unwritable warm)) = Some sh_b /\
  disk (snd (get_sat_data world_b_unwritable warm)) = disk warm /\
  logger (snd (get_sat_data world_b_unwritable warm))
  = [(ERROR, "Error saving data: PermissionError")] /\
  pts_b <> pts_a.
Proof. repeat split; try reflexivity; discriminate. Qed.

Lemma sat_data_degrades_to_empty_witness :
  fst (sat_data world_offline cold)
  = Ok {| d_points := Some []; d_shadow_intervals := Some [] |}.
Proof.
  apply (@sat_data_degrades_to_empty externals world_offline cold); reflexivity.
Defined.

Lemma load_after_save_round_trip_witness :
  fst (save_data world_ok pts_a sh_a cold) = Ok true /\
  fst (load_data (snd (save_data world_ok pts_a sh_a cold)))
  = Ok (Some pts_a, Some sh_a, Some (now_save world_ok)) /\
  _sat_data_cache (snd (load_data (snd (save_data world_ok pts_a sh_a cold)))) = Some pts_a /\
  _shadow_intervals_cache (snd (load_data (snd (save_data world_ok pts_a sh_a cold))))
  = Some sh_a.
Proof.
  apply (@load_after_save_round_trip externals world_ok pts_a sh_a cold).
  - intros p; reflexivity.
  - repeat constructor. exists t0. split; reflexivity.
  - reflexivity.
Defined.

(** ** Instances of the further properties *)

Lemma decimate_output_is_spaced_witness :
  spaced epoches_0_240 /\ increasing (map edate epoches_0_240).
Proof.
  apply (@decimate_output_is_spaced externals raw_0_240_480 epoches_0_240).
  reflexivity.
Defined.

Lemma decimate_keeps_input_epochs_witness :
  (List.length epoches_0_240 <= List.length raw_0_240_480 - 1)%nat /\
  Forall (fun e => exists r, In r (removelast raw_0_240_480) /\
                             strptime (raw_date r) = Ok (edate e) /\
                             e = epoch_of (edate e) r) epoches_0_240 /\
  (forall r0 r1 rest, raw_0_240_480 = r0 :: r1 :: rest ->
     exists d tl, strptime (raw_date r0) = Ok d /\ epoches_0_240 = epoch_of d r0 :: tl).
Proof.
  apply (@decimate_keeps_input_epochs externals raw_0_240_480 epoches_0_240).
  reflexivity.
Defined.

Lemma pipeline_points_are_240s_apart_witness :
  pipeline world_long = Ok (pts_long, sh_long) /\
  exists ds, map date pts_long = map Datetime ds /\ apart_240 ds.
Proof.
  split; [reflexivity|].
  apply (@pipeline_points_are_240s_apart externals world_long pts_long sh_long).
  reflexivity.
Defined.

Lemma pipeline_needs_three_raw_epochs_witness :
  pipeline world_two_raws = Ok ([], []) \/ exists e, pipeline world_two_raws = Raise e.
Proof.
  apply (@pipeline_needs_three_raw_epochs externals world_two_raws
           [ raw "2024-01-01T00:00:00.000000" 4600;
             raw "2024-01-01T00:04:00.000000" (-200) ] tt).
  - reflexivity.
  - simpl; lia.
Defined.

Lemma pipeline_shadow_intervals_are_ordered_witness :
  pipeline world_long = Ok (pts_long, sh_long) /\
  exists ivs, sh_long = map stamp ivs /\ increasing (timeline ivs None).
Proof.
  split; [reflexivity|].
  apply (@pipeline_shadow_intervals_are_ordered externals world_long pts_long sh_long).
  reflexivity.
Defined.

Lemma cold_query_returns_generated_data_witness :
  fst (sat_data world_ok cold)
  = Ok {| d_points := Some pts_a; d_shadow_intervals := Some sh_a |} /\
  _updated_at_cache (snd (sat_data world_ok cold)) = Some (now_save world_ok) /\
  disk (snd (sat_data world_ok cold)) = generation_files pts_a sh_a (now_save world_ok).
Proof.
  apply (@cold_query_returns_generated_data externals world_ok cold pts_a sh_a).
  - reflexivity.
  - reflexivity.
  - reflexivity.
  - intros p; reflexivity.
  - repeat constructor. exists t0. split; reflexivity.
  - reflexivity.
Defined.

Lemma cold_query_after_failed_save_witness :
  fst (sat_data world_b_unwritable cold)
  = Ok {| d_points := Some []; d_shadow_intervals := Some [] |} /\
  _sat_data_cache (snd (sat_data world_b_unwritable cold)) = Some pts_b /\
  forall w', fst (sat_data w' (snd (sat_data world_b_unwritable cold)))
             = Ok {| d_points := Some pts_b; d_shadow_intervals := Some sh_b |}.
Proof.
  apply (@cold_query_after_failed_save externals world_b_unwritable cold pts_b sh_b).
  - reflexivity.
  - reflexivity.
  - reflexivity.
  - discriminate.
Defined.

Lemma initialize_from_readable_files_witness :
  _sat_data_cache (mem (snd (initialize_data_store world_offline restarted))) = Some pts_a /\
  _shadow_intervals_cache (mem (snd (initialize_data_store world_offline restarted)))
  = Some sh_a /\
  _updated_at_cache (mem (snd (initialize_data_store world_offline restarted)))
  = Some (t0 + seconds 43200) /\
  disk (mem (snd (initialize_data_store world_offline restarted))) = disk (mem restarted) /\
  forall w', initialize_data_store w' restarted
             = initialize_data_store world_offline restarted.
Proof.
  apply (@initialize_from_readable_files externals world_offline restarted
           pts_a sh_a (t0 + seconds 43200)).
  reflexivity.
Defined.

Lemma failed_refresh_serves_stale_record_witness :
  fst (get_iss_data world_ok (Some t0) None
         (snd (refresh_satellite_data world_offline warm)))
  = fst (get_iss_data world_ok (Some t0) None warm) /\
  fst (get_iss_data_raw world_ok (Some t0) None
         (snd (refresh_satellite_data world_offline warm)))
  = fst (get_iss_data_raw world_ok (Some t0) None warm).
Proof.
  apply (@failed_refresh_serves_stale_record externals world_offline warm pts_a sh_a
           "ConnectionError").
  - reflexivity.
  - reflexivity.
  - reflexivity.
Defined.

